(** * Contact backend: a shallow embedding of [main.py]

    The service is boundary glue: three handlers that read the process
    environment, call collaborators (the document store, the [email]
    package, an SMTP server, the database handle) and assemble a response.
    The embedding keeps that shape:

    - Python values are modelled by [string], [Z], [bool], [option] (for
      [None]) and [gmap string _] (for [dict] and [os.environ]);
    - every collaborator is a field of a [world] record that tells, for
      each call, whether it returns or raises;
    - handlers run in a small writer/error monad [M]: the result is either
      a value or a raised exception, next to the log of collaborator calls
      that were made, in order.

    A Python [str] is carried as the bytes of its UTF-8 encoding: [len] and
    slices count characters, not bytes.  What [int] makes of a text with
    characters outside ASCII depends on the Unicode database of the
    interpreter and is left to the [interpreter] record. *)

From Stdlib Require Import ZArith Ascii String List Lia.
From stdpp Require Import base option strings list gmap pretty.

Local Open Scope string_scope.
Local Open Scope list_scope.
Local Open Scope Z_scope.

(** ** Exceptions and results *)

Module Py.

(** The exception classes the handlers tell apart. *)
Inductive exc_class :=
| ValueError
| ImportError
| OtherException.

(** An instance of (a subclass of) [Exception]: its class and the text
    that [str(e)] yields. *)
Record pyexc := PyExc { exc_cls : exc_class; exc_str : string }.

(** What a request handler can raise: an ordinary exception, or FastAPI's
    [HTTPException(status_code, detail)]. *)
Inductive exn :=
| Uncaught (e : pyexc)
| HTTPException (status_code : Z) (detail : string).

Inductive result (E A : Type) :=
| Ok (a : A)
| Raise (e : E).
Arguments Ok {E A} a.
Arguments Raise {E A} e.

Definition is_ok {E A} (r : result E A) : bool :=
  match r with Ok _ => true | Raise _ => false end.

(** The values stored in the dictionaries the handlers build. *)
Inductive pyval :=
| PyNone
| PyBool (b : bool)
| PyStr (s : string)
| PyList (l : list string).

(** Truthiness of an [Optional[str]]: [None] and the empty string are
    falsy. *)
Definition truthy (o : option string) : bool :=
  match o with
  | Some s => negb (String.eqb s EmptyString)
  | None => false
  end.

(** [o or default] on an [Optional[str]]. *)
Definition or_default (o : option string) (default : string) : string :=
  match o with
  | Some s => if String.eqb s EmptyString then default else s
  | None => default
  end.

(** A byte that continues the UTF-8 encoding of a character. *)
Definition is_continuation (c : ascii) : bool :=
  let n := nat_of_ascii c in (128 <=? n)%nat && (n <? 192)%nat.

(** [len(s)]: the number of characters of the text. *)
Fixpoint py_len (s : string) : nat :=
  match s with
  | EmptyString => 0
  | String c r => ((if is_continuation c then 0 else 1) + py_len r)%nat
  end.

(** [s[:n]]: the first [n] characters, each with all of its bytes. *)
Fixpoint slice_to (n : nat) (s : string) : string :=
  match s with
  | EmptyString => EmptyString
  | String c r =>
      if is_continuation c then String c (slice_to n r)
      else match n with
           | O => EmptyString
           | S m => String c (slice_to m r)
           end
  end.

(** [l[:n]] on a list *)
Definition list_slice_to {A} (n : nat) (l : list A) : list A := take n l.

(** *** [int(s)] on a string, base 10

    What [int] takes from the running interpreter. *)
Record interpreter := {
  (** [sys.get_int_max_str_digits()]: 0 when conversions are unlimited *)
  max_str_digits : Z;
  (** [int(s)] for a text [s] with characters outside ASCII, where the
      Unicode database of the interpreter tells the decimal digits and the
      spaces: the integer, or the text of the [ValueError] *)
  int_unicode : string -> Z + string;
}.

Definition is_ascii (s : string) : bool :=
  forallb (fun c => (nat_of_ascii c <? 128)%nat) (list_ascii_of_string s).

(** The characters [int] skips around an ASCII literal. *)
Definition is_space (c : ascii) : bool :=
  let n := nat_of_ascii c in
  ((9 <=? n)%nat && (n <=? 13)%nat) || (n =? 32)%nat.

Definition is_digit (c : ascii) : bool :=
  let n := nat_of_ascii c in (48 <=? n)%nat && (n <=? 57)%nat.

Definition digit_val (c : ascii) : Z := Z.of_nat (nat_of_ascii c) - 48.

Fixpoint lstrip (l : list ascii) : list ascii :=
  match l with
  | c :: r => if is_space c then lstrip r else l
  | [] => []
  end.

(** The run of digits and single underscores at the head of [l]: its
    value, the number of digits and what follows; [None] when two
    underscores meet or the run ends in one. *)
Fixpoint scan_digits (l : list ascii) (acc count : Z) (after_underscore : bool)
    : option (Z * Z * list ascii) :=
  match l with
  | c :: r =>
      if is_digit c then scan_digits r (10 * acc + digit_val c) (count + 1) false
      else if Ascii.eqb c "_"%char then
             (if after_underscore then None else scan_digits r acc count true)
      else if after_underscore then None else Some (acc, count, l)
  | [] => if after_underscore then None else Some (acc, count, [])
  end.

(** [repr(s)] of an ASCII text. *)

Definition double_quote : ascii := ascii_of_nat 34.
Definition single_quote : ascii := ascii_of_nat 39.
Definition backslash : ascii := ascii_of_nat 92.

Definition hex_digit (n : nat) : ascii :=
  if (n <? 10)%nat then ascii_of_nat (48 + n) else ascii_of_nat (87 + n).

Definition repr_char (quote c : ascii) : list ascii :=
  let n := nat_of_ascii c in
  if Ascii.eqb c quote || Ascii.eqb c backslash then [backslash; c]
  else if (n =? 9)%nat then [backslash; "t"%char]
  else if (n =? 10)%nat then [backslash; "n"%char]
  else if (n =? 13)%nat then [backslash; "r"%char]
  else if (n <? 32)%nat || (n =? 127)%nat then
         [backslash; "x"%char; hex_digit (n / 16); hex_digit (n mod 16)]
  else [c].

Definition repr (s : string) : string :=
  let l := list_ascii_of_string s in
  let quote :=
    if existsb (Ascii.eqb single_quote) l
       && negb (existsb (Ascii.eqb double_quote) l)
    then double_quote else single_quote in
  string_of_list_ascii
    (quote :: concat (map (repr_char quote) l) ++ [quote]).

(** The error shows at most 200 characters of the [repr]. *)
Definition invalid_literal (s : string) : pyexc :=
  PyExc ValueError
    ("invalid literal for int() with base 10: "
     +:+ String.substring 0 200 (repr s)).

Definition exceeds_limit (limit digits : Z) : pyexc :=
  PyExc ValueError
    ("Exceeds the limit (" +:+ pretty limit
     +:+ " digits) for integer string conversion: value has "
     +:+ pretty digits
     +:+ " digits; use sys.set_int_max_str_digits() to increase the limit").

(** What the characters of a text amount to for [int]. *)
Inductive literal :=
| Value (n : Z)
| TooManyDigits (digits : Z)
| NoLiteral.

(** Spaces, one optional sign, then a run of digits with single
    underscores between them, then spaces.  The limit on the number of
    digits is looked at once the run is read, before what follows it, and
    only for more than 640 digits. *)
Definition parse_literal (limit : Z) (l : list ascii) : literal :=
  let l := lstrip l in
  let '(negative, l) :=
    match l with
    | c :: r =>
        if Ascii.eqb c "-"%char then (true, r)
        else if Ascii.eqb c "+"%char then (false, r)
        else (false, l)
    | [] => (false, l)
    end in
  match l with
  | c :: _ =>
      if Ascii.eqb c "_"%char then NoLiteral
      else
        match scan_digits l 0 0 false with
        | None => NoLiteral
        | Some (value, digits, rest) =>
            if (640 <? digits) && (0 <? limit) && (limit <? digits)
            then TooManyDigits digits
            else if (digits =? 0) || negb (forallb is_space rest)
            then NoLiteral
            else Value (if negative then - value else value)
        end
  | [] => NoLiteral
  end.

(** [int(s)] on an ASCII text. *)
Definition int_ascii (limit : Z) (s : string) : result pyexc Z :=
  match parse_literal limit (list_ascii_of_string s) with
  | Value n => Ok n
  | TooManyDigits digits => Raise (exceeds_limit limit digits)
  | NoLiteral => Raise (invalid_literal s)
  end.

Definition int (py : interpreter) (s : string) : result pyexc Z :=
  if is_ascii s then int_ascii (max_str_digits py) s
  else
    match int_unicode py s with
    | inl n => Ok n
    | inr msg => Raise (PyExc ValueError msg)
    end.

(** *** CPython 3.11 on text outside ASCII

    Its Unicode database is that of Unicode 14.0.0. *)

(** The characters outside ASCII that are spaces (first and last of each range). *)
Definition unicode_spaces : list (N * N) :=
  [(133, 133); (160, 160); (5760, 5760); (8192, 8202); (8232, 8233);
   (8239, 8239); (8287, 8287); (12288, 12288)]%N.

(** The decimal digits outside ASCII: ranges of consecutive digits, each
    starting at a digit zero. *)
Definition unicode_decimals : list (N * N) :=
  [(1632, 1641); (1776, 1785); (1984, 1993); (2406, 2415); (2534, 2543);
   (2662, 2671); (2790, 2799); (2918, 2927); (3046, 3055); (3174, 3183);
   (3302, 3311); (3430, 3439); (3558, 3567); (3664, 3673); (3792, 3801);
   (3872, 3881); (4160, 4169); (4240, 4249); (6112, 6121); (6160, 6169);
   (6470, 6479); (6608, 6617); (6784, 6793); (6800, 6809); (6992, 7001);
   (7088, 7097); (7232, 7241); (7248, 7257); (42528, 42537); (43216, 43225);
   (43264, 43273); (43472, 43481); (43504, 43513); (43600, 43609);
   (44016, 44025); (65296, 65305); (66720, 66729); (68912, 68921);
   (69734, 69743); (69872, 69881); (69942, 69951); (70096, 70105);
   (70384, 70393); (70736, 70745); (70864, 70873); (71248, 71257);
   (71360, 71369); (71472, 71481); (71904, 71913); (72016, 72025);
   (72784, 72793); (73040, 73049); (73120, 73129); (92768, 92777);
   (92864, 92873); (93008, 93017); (120782, 120831); (123200, 123209);
   (123632, 123641); (125264, 125273); (130032, 130041)]%N.

(** The characters outside ASCII that [repr] escapes. *)
Definition unicode_unprintable : list (N * N) :=
  [(128, 160); (173, 173); (888, 889); (896, 899); (907, 907); (909, 909);
   (930, 930); (1328, 1328); (1367, 1368); (1419, 1420); (1424, 1424);
   (1480, 1487); (1515, 1518); (1525, 1541); (1564, 1564); (1757, 1757);
   (1806, 1807); (1867, 1868); (1970, 1983); (2043, 2044); (2094, 2095);
   (2111, 2111); (2140, 2141); (2143, 2143); (2155, 2159); (2191, 2199);
   (2274, 2274); (2436, 2436); (2445, 2446); (2449, 2450); (2473, 2473);
   (2481, 2481); (2483, 2485); (2490, 2491); (2501, 2502); (2505, 2506);
   (2511, 2518); (2520, 2523); (2526, 2526); (2532, 2533); (2559, 2560);
   (2564, 2564); (2571, 2574); (2577, 2578); (2601, 2601); (2609, 2609);
   (2612, 2612); (2615, 2615); (2618, 2619); (2621, 2621); (2627, 2630);
   (2633, 2634); (2638, 2640); (2642, 2648); (2653, 2653); (2655, 2661);
   (2679, 2688); (2692, 2692); (2702, 2702); (2706, 2706); (2729, 2729);
   (2737, 2737); (2740, 2740); (2746, 2747); (2758, 2758); (2762, 2762);
   (2766, 2767); (2769, 2783); (2788, 2789); (2802, 2808); (2816, 2816);
   (2820, 2820); (2829, 2830); (2833, 2834); (2857, 2857); (2865, 2865);
   (2868, 2868); (2874, 2875); (2885, 2886); (2889, 2890); (2894, 2900);
   (2904, 2907); (2910, 2910); (2916, 2917); (2936, 2945); (2948, 2948);
   (2955, 2957); (2961, 2961); (2966, 2968); (2971, 2971); (2973, 2973);
   (2976, 2978); (2981, 2983); (2987, 2989); (3002, 3005); (3011, 3013);
   (3017, 3017); (3022, 3023); (3025, 3030); (3032, 3045); (3067, 3071);
   (3085, 3085); (3089, 3089); (3113, 3113); (3130, 3131); (3141, 3141);
   (3145, 3145); (3150, 3156); (3159, 3159); (3163, 3164); (3166, 3167);
   (3172, 3173); (3184, 3190); (3213, 3213); (3217, 3217); (3241, 3241);
   (3252, 3252); (3258, 3259); (3269, 3269); (3273, 3273); (3278, 3284);
   (3287, 3292); (3295, 3295); (3300, 3301); (3312, 3312); (3315, 3327);
   (3341, 3341); (3345, 3345); (3397, 3397); (3401, 3401); (3408, 3411);
   (3428, 3429); (3456, 3456); (3460, 3460); (3479, 3481); (3506, 3506);
   (3516, 3516); (3518, 3519); (3527, 3529); (3531, 3534); (3541, 3541);
   (3543, 3543); (3552, 3557); (3568, 3569); (3573, 3584); (3643, 3646);
   (3676, 3712); (3715, 3715); (3717, 3717); (3723, 3723); (3748, 3748);
   (3750, 3750); (3774, 3775); (3781, 3781); (3783, 3783); (3790, 3791);
   (3802, 3803); (3808, 3839); (3912, 3912); (3949, 3952); (3992, 3992);
   (4029, 4029); (4045, 4045); (4059, 4095); (4294, 4294); (4296, 4300);
   (4302, 4303); (4681, 4681); (4686, 4687); (4695, 4695); (4697, 4697);
   (4702, 4703); (4745, 4745); (4750, 4751); (4785, 4785); (4790, 4791);
   (4799, 4799); (4801, 4801); (4806, 4807); (4823, 4823); (4881, 4881);
   (4886, 4887); (4955, 4956); (4989, 4991); (5018, 5023); (5110, 5111);
   (5118, 5119); (5760, 5760); (5789, 5791); (5881, 5887); (5910, 5918);
   (5943, 5951); (5972, 5983); (5997, 5997); (6001, 6001); (6004, 6015);
   (6110, 6111); (6122, 6127); (6138, 6143); (6158, 6158); (6170, 6175);
   (6265, 6271); (6315, 6319); (6390, 6399); (6431, 6431); (6444, 6447);
   (6460, 6463); (6465, 6467); (6510, 6511); (6517, 6527); (6572, 6575);
   (6602, 6607); (6619, 6621); (6684, 6685); (6751, 6751); (6781, 6782);
   (6794, 6799); (6810, 6815); (6830, 6831); (6863, 6911); (6989, 6991);
   (7039, 7039); (7156, 7163); (7224, 7226); (7242, 7244); (7305, 7311);
   (7355, 7356); (7368, 7375); (7419, 7423); (7958, 7959); (7966, 7967);
   (8006, 8007); (8014, 8015); (8024, 8024); (8026, 8026); (8028, 8028);
   (8030, 8030); (8062, 8063); (8117, 8117); (8133, 8133); (8148, 8149);
   (8156, 8156); (8176, 8177); (8181, 8181); (8191, 8207); (8232, 8239);
   (8287, 8303); (8306, 8307); (8335, 8335); (8349, 8351); (8385, 8399);
   (8433, 8447); (8588, 8591); (9255, 9279); (9291, 9311); (11124, 11125);
   (11158, 11158); (11508, 11512); (11558, 11558); (11560, 11564);
   (11566, 11567); (11624, 11630); (11633, 11646); (11671, 11679);
   (11687, 11687); (11695, 11695); (11703, 11703); (11711, 11711);
   (11719, 11719); (11727, 11727); (11735, 11735); (11743, 11743);
   (11870, 11903); (11930, 11930); (12020, 12031); (12246, 12271);
   (12284, 12288); (12352, 12352); (12439, 12440); (12544, 12548);
   (12592, 12592); (12687, 12687); (12772, 12783); (12831, 12831);
   (42125, 42127); (42183, 42191); (42540, 42559); (42744, 42751);
   (42955, 42959); (42962, 42962); (42964, 42964); (42970, 42993);
   (43053, 43055); (43066, 43071); (43128, 43135); (43206, 43213);
   (43226, 43231); (43348, 43358); (43389, 43391); (43470, 43470);
   (43482, 43485); (43519, 43519); (43575, 43583); (43598, 43599);
   (43610, 43611); (43715, 43738); (43767, 43776); (43783, 43784);
   (43791, 43792); (43799, 43807); (43815, 43815); (43823, 43823);
   (43884, 43887); (44014, 44015); (44026, 44031); (55204, 55215);
   (55239, 55242); (55292, 63743); (64110, 64111); (64218, 64255);
   (64263, 64274); (64280, 64284); (64311, 64311); (64317, 64317);
   (64319, 64319); (64322, 64322); (64325, 64325); (64451, 64466);
   (64912, 64913); (64968, 64974); (64976, 65007); (65050, 65055);
   (65107, 65107); (65127, 65127); (65132, 65135); (65141, 65141);
   (65277, 65280); (65471, 65473); (65480, 65481); (65488, 65489);
   (65496, 65497); (65501, 65503); (65511, 65511); (65519, 65531);
   (65534, 65535); (65548, 65548); (65575, 65575); (65595, 65595);
   (65598, 65598); (65614, 65615); (65630, 65663); (65787, 65791);
   (65795, 65798); (65844, 65846); (65935, 65935); (65949, 65951);
   (65953, 65999); (66046, 66175); (66205, 66207); (66257, 66271);
   (66300, 66303); (66340, 66348); (66379, 66383); (66427, 66431);
   (66462, 66462); (66500, 66503); (66518, 66559); (66718, 66719);
   (66730, 66735); (66772, 66775); (66812, 66815); (66856, 66863);
   (66916, 66926); (66939, 66939); (66955, 66955); (66963, 66963);
   (66966, 66966); (66978, 66978); (66994, 66994); (67002, 67002);
   (67005, 67071); (67383, 67391); (67414, 67423); (67432, 67455);
   (67462, 67462); (67505, 67505); (67515, 67583); (67590, 67591);
   (67593, 67593); (67638, 67638); (67641, 67643); (67645, 67646);
   (67670, 67670); (67743, 67750); (67760, 67807); (67827, 67827);
   (67830, 67834); (67868, 67870); (67898, 67902); (67904, 67967);
   (68024, 68027); (68048, 68049); (68100, 68100); (68103, 68107);
   (68116, 68116); (68120, 68120); (68150, 68151); (68155, 68158);
   (68169, 68175); (68185, 68191); (68256, 68287); (68327, 68330);
   (68343, 68351); (68406, 68408); (68438, 68439); (68467, 68471);
   (68498, 68504); (68509, 68520); (68528, 68607); (68681, 68735);
   (68787, 68799); (68851, 68857); (68904, 68911); (68922, 69215);
   (69247, 69247); (69290, 69290); (69294, 69295); (69298, 69375);
   (69416, 69423); (69466, 69487); (69514, 69551); (69580, 69599);
   (69623, 69631); (69710, 69713); (69750, 69758); (69821, 69821);
   (69827, 69839); (69865, 69871); (69882, 69887); (69941, 69941);
   (69960, 69967); (70007, 70015); (70112, 70112); (70133, 70143);
   (70162, 70162); (70207, 70271); (70279, 70279); (70281, 70281);
   (70286, 70286); (70302, 70302); (70314, 70319); (70379, 70383);
   (70394, 70399); (70404, 70404); (70413, 70414); (70417, 70418);
   (70441, 70441); (70449, 70449); (70452, 70452); (70458, 70458);
   (70469, 70470); (70473, 70474); (70478, 70479); (70481, 70486);
   (70488, 70492); (70500, 70501); (70509, 70511); (70517, 70655);
   (70748, 70748); (70754, 70783); (70856, 70863); (70874, 71039);
   (71094, 71095); (71134, 71167); (71237, 71247); (71258, 71263);
   (71277, 71295); (71354, 71359); (71370, 71423); (71451, 71452);
   (71468, 71471); (71495, 71679); (71740, 71839); (71923, 71934);
   (71943, 71944); (71946, 71947); (71956, 71956); (71959, 71959);
   (71990, 71990); (71993, 71994); (72007, 72015); (72026, 72095);
   (72104, 72105); (72152, 72153); (72165, 72191); (72264, 72271);
   (72355, 72367); (72441, 72703); (72713, 72713); (72759, 72759);
   (72774, 72783); (72813, 72815); (72848, 72849); (72872, 72872);
   (72887, 72959); (72967, 72967); (72970, 72970); (73015, 73017);
   (73019, 73019); (73022, 73022); (73032, 73039); (73050, 73055);
   (73062, 73062); (73065, 73065); (73103, 73103); (73106, 73106);
   (73113, 73119); (73130, 73439); (73465, 73647); (73649, 73663);
   (73714, 73726); (74650, 74751); (74863, 74863); (74869, 74879);
   (75076, 77711); (77811, 77823); (78895, 82943); (83527, 92159);
   (92729, 92735); (92767, 92767); (92778, 92781); (92863, 92863);
   (92874, 92879); (92910, 92911); (92918, 92927); (92998, 93007);
   (93018, 93018); (93026, 93026); (93048, 93052); (93072, 93759);
   (93851, 93951); (94027, 94030); (94088, 94094); (94112, 94175);
   (94181, 94191); (94194, 94207); (100344, 100351); (101590, 101631);
   (101641, 110575); (110580, 110580); (110588, 110588); (110591, 110591);
   (110883, 110927); (110931, 110947); (110952, 110959); (111356, 113663);
   (113771, 113775); (113789, 113791); (113801, 113807); (113818, 113819);
   (113824, 118527); (118574, 118575); (118599, 118607); (118724, 118783);
   (119030, 119039); (119079, 119080); (119155, 119162); (119275, 119295);
   (119366, 119519); (119540, 119551); (119639, 119647); (119673, 119807);
   (119893, 119893); (119965, 119965); (119968, 119969); (119971, 119972);
   (119975, 119976); (119981, 119981); (119994, 119994); (119996, 119996);
   (120004, 120004); (120070, 120070); (120075, 120076); (120085, 120085);
   (120093, 120093); (120122, 120122); (120127, 120127); (120133, 120133);
   (120135, 120137); (120145, 120145); (120486, 120487); (120780, 120781);
   (121484, 121498); (121504, 121504); (121520, 122623); (122655, 122879);
   (122887, 122887); (122905, 122906); (122914, 122914); (122917, 122917);
   (122923, 123135); (123181, 123183); (123198, 123199); (123210, 123213);
   (123216, 123535); (123567, 123583); (123642, 123646); (123648, 124895);
   (124903, 124903); (124908, 124908); (124911, 124911); (124927, 124927);
   (125125, 125126); (125143, 125183); (125260, 125263); (125274, 125277);
   (125280, 126064); (126133, 126208); (126270, 126463); (126468, 126468);
   (126496, 126496); (126499, 126499); (126501, 126502); (126504, 126504);
   (126515, 126515); (126520, 126520); (126522, 126522); (126524, 126529);
   (126531, 126534); (126536, 126536); (126538, 126538); (126540, 126540);
   (126544, 126544); (126547, 126547); (126549, 126550); (126552, 126552);
   (126554, 126554); (126556, 126556); (126558, 126558); (126560, 126560);
   (126563, 126563); (126565, 126566); (126571, 126571); (126579, 126579);
   (126584, 126584); (126589, 126589); (126591, 126591); (126602, 126602);
   (126620, 126624); (126628, 126628); (126634, 126634); (126652, 126703);
   (126706, 126975); (127020, 127023); (127124, 127135); (127151, 127152);
   (127168, 127168); (127184, 127184); (127222, 127231); (127406, 127461);
   (127491, 127503); (127548, 127551); (127561, 127567); (127570, 127583);
   (127590, 127743); (128728, 128732); (128749, 128751); (128765, 128767);
   (128884, 128895); (128985, 128991); (129004, 129007); (129009, 129023);
   (129036, 129039); (129096, 129103); (129114, 129119); (129160, 129167);
   (129198, 129199); (129202, 129279); (129620, 129631); (129646, 129647);
   (129653, 129655); (129661, 129663); (129671, 129679); (129709, 129711);
   (129723, 129727); (129734, 129743); (129754, 129759); (129768, 129775);
   (129783, 129791); (129939, 129939); (129995, 130031); (130042, 131071);
   (173792, 173823); (177977, 177983); (178206, 178207); (183970, 183983);
   (191457, 194559); (195102, 196607); (201547, 917759); (918000, 1114111)]%N.

Definition in_ranges (table : list (N * N)) (cp : N) : bool :=
  existsb (fun r => (fst r <=? cp)%N && (cp <=? snd r)%N) table.

Definition unicode_decimal (cp : N) : option N :=
  (fun r => ((cp - fst r) mod 10)%N)
    <$> find (fun r => (fst r <=? cp)%N && (cp <=? snd r)%N) unicode_decimals.

(** The characters of a text, from its UTF-8 bytes; [None] for bytes that
    encode no text.  [pending] bytes are still to come for the character
    whose bits so far are [acc]; it must not be below [low]. *)
Fixpoint utf8_decode (l : list ascii) (pending : nat) (acc low : N)
    : option (list N) :=
  match l with
  | [] => match pending with O => Some [] | S _ => None end
  | c :: r =>
      let b := N_of_ascii c in
      match pending with
      | O =>
          if (b <? 128)%N then cons b <$> utf8_decode r 0 0%N 0%N
          else if (194 <=? b)%N && (b <=? 223)%N
          then utf8_decode r 1 (b - 192)%N 128%N
          else if (224 <=? b)%N && (b <=? 239)%N
          then utf8_decode r 2 (b - 224)%N 2048%N
          else if (240 <=? b)%N && (b <=? 244)%N
          then utf8_decode r 3 (b - 240)%N 65536%N
          else None
      | S k =>
          if (128 <=? b)%N && (b <? 192)%N then
            let acc := (acc * 64 + (b - 128))%N in
            match k with
            | O =>
                if (low <=? acc)%N && (acc <=? 1114111)%N
                   && negb ((55296 <=? acc)%N && (acc <=? 57343)%N)
                then cons acc <$> utf8_decode r 0 0%N 0%N
                else None
            | S _ => utf8_decode r k acc low
            end
          else None
      end
  end.

Definition utf8_encode (cp : N) : list ascii :=
  let byte n := ascii_of_N n in
  if (cp <? 128)%N then [byte cp]
  else if (cp <? 2048)%N then
         [byte (192 + cp / 64)%N; byte (128 + cp mod 64)%N]
  else if (cp <? 65536)%N then
         [byte (224 + cp / 4096)%N; byte (128 + (cp / 64) mod 64)%N;
          byte (128 + cp mod 64)%N]
  else [byte (240 + cp / 262144)%N; byte (128 + (cp / 4096) mod 64)%N;
        byte (128 + (cp / 64) mod 64)%N; byte (128 + cp mod 64)%N].

(** The ASCII text [int] parses: spaces become blanks and decimal digits
    ASCII digits; the first character that is neither ends the text with a
    question mark. *)
Fixpoint to_ascii (l : list N) : list ascii :=
  match l with
  | [] => []
  | cp :: r =>
      if (cp <? 127)%N then ascii_of_N cp :: to_ascii r
      else if in_ranges unicode_spaces cp then " "%char :: to_ascii r
      else match unicode_decimal cp with
           | Some d => ascii_of_N (48 + d) :: to_ascii r
           | None => ["?"%char]
           end
  end.

Fixpoint hex_N (width : nat) (n : N) : list ascii :=
  match width with
  | O => []
  | S w => hex_N w (n / 16)%N ++ [hex_digit (N.to_nat (n mod 16)%N)]
  end.

Definition repr_code_point (quote : ascii) (cp : N) : list ascii :=
  if (cp <? 128)%N then repr_char quote (ascii_of_N cp)
  else if in_ranges unicode_unprintable cp then
         backslash
         :: (if (cp <? 256)%N then "x"%char :: hex_N 2 cp
             else if (cp <? 65536)%N then "u"%char :: hex_N 4 cp
             else "U"%char :: hex_N 8 cp)
  else utf8_encode cp.

(** [repr] of the text with bytes [s] and characters [l]. *)
Definition repr_unicode (s : string) (l : list N) : string :=
  let bytes := list_ascii_of_string s in
  let quote :=
    if existsb (Ascii.eqb single_quote) bytes
       && negb (existsb (Ascii.eqb double_quote) bytes)
    then double_quote else single_quote in
  string_of_list_ascii
    (quote :: concat (map (repr_code_point quote) l) ++ [quote]).

(** [int(s)] for a text outside ASCII.  Bytes that encode no text have no
    [str] to stand for; they are answered like an ASCII text that is no
    literal. *)
Definition int_unicode_14 (limit : Z) (s : string) : Z + string :=
  match utf8_decode (list_ascii_of_string s) 0 0%N 0%N with
  | None => inr (exc_str (invalid_literal s))
  | Some l =>
      match parse_literal limit (to_ascii l) with
      | Value n => inl n
      | TooManyDigits digits => inr (exc_str (exceeds_limit limit digits))
      | NoLiteral =>
          inr ("invalid literal for int() with base 10: "
               +:+ slice_to 200 (repr_unicode s l))
      end
  end.

(** CPython 3.11 as it starts: at most 4300 digits. *)
Definition cpython_3_11 : interpreter :=
  {| max_str_digits := 4300; int_unicode := int_unicode_14 4300 |}.

End Py.
Export Py.

(** ** Data model *)

(** Modelled from the spec: [schemas.Contactmessage] is not part of
    [main.py]; the spec gives its attributes as name (string), email
    (string), subject (optional string) and message (string). *)
Record Contactmessage := {
  name : string;
  email : string;
  subject : option string;
  message : string;
}.

(** The [EmailMessage] the notifier hands to the server. *)
Record EmailMessage := {
  msg_subject : string;
  msg_from : string;
  msg_to : string;
  msg_content : string;
}.

(** [class ContactResponse(BaseModel)] *)
Record ContactResponse := {
  id : string;
  emailed : bool;
  email_info : gmap string pyval;
}.

(** The object bound to [database.db] when it is not [None]. *)
Record db_handle := {
  (** [None]: the handle has no attribute [name]; otherwise what reading
      [db.name] does. *)
  db_name : option (result pyexc pyval);
  db_list_collection_names : result pyexc (list string);
}.

(** ** Collaborators

    Everything [main.py] calls but does not define.  Each field gives the
    outcome of one kind of call; exceptions are instances of [Exception]. *)
Record world := {
  (** the interpreter the service runs on *)
  w_python : interpreter;
  (** [database.create_document(collection, payload)] *)
  w_create_document : string -> Contactmessage -> result pyexc string;
  (** [from database import db] *)
  w_import_db : result pyexc (option db_handle);
  (** [msg[name] = value]: the [email] package rejects some header values *)
  w_set_header : string -> string -> result pyexc unit;
  (** [msg.set_content(body)] *)
  w_set_content : string -> result pyexc unit;
  (** [smtplib.SMTP(host, port, timeout=...)], which connects *)
  w_smtp_connect : string -> Z -> Z -> result pyexc unit;
  w_starttls : result pyexc unit;
  w_login : string -> string -> result pyexc unit;
  w_send_message : EmailMessage -> result pyexc unit;
  (** [SMTP.__exit__]: QUIT and close *)
  w_smtp_exit : result pyexc unit;
  (** pydantic's coercion of a value that is not a [bool] into the
      [emailed: bool] field *)
  w_coerce_bool : pyval -> result pyexc bool;
}.

(** ** The log of collaborator calls *)

Inductive call :=
| CreateDocument (collection : string) (payload : Contactmessage)
| ImportDb
| ListCollectionNames
| SMTPConnect (host : string) (port : Z) (timeout : Z)
| StartTLS
| Login (user password : string)
| SendMessage (msg : EmailMessage)
| SMTPExit.

Inductive event :=
| Call (c : call) (ok : bool)
  (** the call was made; [ok] tells whether it returned *)
| Notify (payload : Contactmessage)
  (** [try_send_email] was entered *).

(** Calls that change something outside the process. *)
Definition is_write (ev : event) : bool :=
  match ev with
  | Call (CreateDocument _ _) _ => true
  | Call (SendMessage _) _ => true
  | _ => false
  end.


(** The calls [test_database] may make. *)
Definition is_db_read (ev : event) : bool :=
  match ev with
  | Call ImportDb _ | Call ListCollectionNames _ => true
  | _ => false
  end.

(** ** The monad of handlers *)

Definition M (E A : Type) : Type := (result E A * list event)%type.

Definition outcome {E A} (m : M E A) : result E A := fst m.
Definition trace {E A} (m : M E A) : list event := snd m.

#[global] Instance M_ret {E} : MRet (M E) := fun A a => (Ok a, []).

#[global] Instance M_bind {E} : MBind (M E) := fun A B f m =>
  match m with
  | (Ok a, t) => let '(r, t') := f a in (r, t ++ t')
  | (Raise e, t) => (Raise e, t)
  end.

Definition raise {E A} (e : E) : M E A := (Raise e, []).

Definition log {E} (ev : event) : M E unit := (Ok tt, [ev]).

(** A collaborator call: logged with its outcome. *)
Definition do_call {A} (c : call) (r : result pyexc A) : M pyexc A :=
  (r, [Call c (is_ok r)]).

(** A library operation that is not logged. *)
Definition pure_call {A} (r : result pyexc A) : M pyexc A := (r, []).

(** [try: m  except Exception as e: h e] *)
Definition try_except {E A} (m : M pyexc A) (h : pyexc -> M E A) : M E A :=
  match m with
  | (Ok a, t) => (Ok a, t)
  | (Raise e, t) => let '(r, t') := h e in (r, t ++ t')
  end.

(** [with cm: body], after [cm] was entered: the exit code always runs;
    if it raises, that is the exception that propagates. *)
Definition with_exit {E A} (body : M E A) (exit : M E unit) : M E A :=
  let '(r, t) := body in
  match exit with
  | (Ok _, t') => (r, t ++ t')
  | (Raise e, t') => (Raise e, t ++ t')
  end.

(** An exception leaving a block that does not handle it. *)
Definition uncaught {A} (m : M pyexc A) : M exn A :=
  match m with
  | (Ok a, t) => (Ok a, t)
  | (Raise e, t) => (Raise (Uncaught e), t)
  end.

(** ** [os.getenv] *)

Definition getenv (env : gmap string string) (k : string) : option string :=
  env !! k.

Definition getenv_d (env : gmap string string) (k default : string) : string :=
  match env !! k with Some v => v | None => default end.

(** The string held by a truthy [Optional[str]]. *)
Definition the_str (o : option string) : string := default EmptyString o.

Definition nl : string := String (ascii_of_nat 10) EmptyString.

(** ** [try_send_email] *)

(** Line 99: the subject line. *)
Definition email_subject (payload : Contactmessage) : string :=
  "New portfolio contact: " +:+ or_default (subject payload) "No subject".

(** Lines 103-105: the body. *)
Definition email_content (payload : Contactmessage) : string :=
  "Name: " +:+ name payload +:+ nl +:+
  "Email: " +:+ email payload +:+ nl +:+ nl +:+
  "Message:" +:+ nl +:+ message payload +:+ nl.

(** Lines 98-106: the message and its headers.  Setting a header or the
    content may raise inside the [email] package. *)
Definition build_message (w : world) (payload : Contactmessage)
    (smtp_from smtp_to : string) : M pyexc EmailMessage :=
  _ ← pure_call (w_set_header w "Subject" (email_subject payload));
  _ ← pure_call (w_set_header w "From" smtp_from);
  _ ← pure_call (w_set_header w "To" smtp_to);
  _ ← pure_call (w_set_content w (email_content payload));
  mret {| msg_subject := email_subject payload;
          msg_from := smtp_from;
          msg_to := smtp_to;
          msg_content := email_content payload |}.

(** Lines 108-112: the [with smtplib.SMTP(...) as server] block. *)
Definition smtp_session (w : world) (host : string) (port : Z)
    (user password : option string) (msg : EmailMessage) : M pyexc unit :=
  _ ← do_call (SMTPConnect host port 15) (w_smtp_connect w host port 15);
  with_exit
    (_ ← do_call StartTLS (w_starttls w);
     _ ← (if truthy user && truthy password
          then do_call (Login (the_str user) (the_str password))
                       (w_login w (the_str user) (the_str password))
          else mret tt);
     do_call (SendMessage msg) (w_send_message w msg))
    (do_call SMTPExit (w_smtp_exit w)).

(** Lines 84-89: the six locals read from the environment. *)
Record smtp_config := {
  smtp_host : option string;
  smtp_port : Z;
  smtp_user : option string;
  smtp_pass : option string;
  smtp_from : string;
  smtp_to : string;
}.

Definition read_smtp_config (py : interpreter) (env : gmap string string)
    (payload : Contactmessage) : result pyexc smtp_config :=
  let host := getenv env "SMTP_HOST" in
  match int py (getenv_d env "SMTP_PORT" "587") with
  | Ok port =>
      Ok {| smtp_host := host;
            smtp_port := port;
            smtp_user := getenv env "SMTP_USER";
            smtp_pass := getenv env "SMTP_PASS";
            smtp_from := getenv_d env "SMTP_FROM" (email payload);
            smtp_to := getenv_d env "SMTP_TO" "studynotion.dev@gmail.com" |}
  | Raise e => Raise e
  end.

Definition not_configured : gmap string pyval :=
  {[ "sent" := PyBool false;
     "reason" := PyStr "SMTP not configured; skipped sending" ]}.

Definition try_send_email (w : world) (env : gmap string string)
    (payload : Contactmessage) : M pyexc (gmap string pyval) :=
  _ ← log (Notify payload);
  cfg ← pure_call (read_smtp_config (w_python w) env payload);
  if negb (truthy (smtp_host cfg)) then mret not_configured
  else
    try_except
      (msg ← build_message w payload (smtp_from cfg) (smtp_to cfg);
       _ ← smtp_session w (the_str (smtp_host cfg)) (smtp_port cfg)
                        (smtp_user cfg) (smtp_pass cfg) msg;
       mret {[ "sent" := PyBool true ]})
      (fun e => mret {[ "sent" := PyBool false; "reason" := PyStr (exc_str e) ]}).

(** ** [submit_contact] *)

(** [email_status.get("sent", False)] *)
Definition get_sent (email_status : gmap string pyval) : pyval :=
  default (PyBool false) (email_status !! "sent").

(** [ContactResponse(id=..., emailed=..., email_info=...)]: the model
    validates [emailed] as a [bool]. *)
Definition make_ContactResponse (w : world) (doc_id : string) (sent : pyval)
    (email_status : gmap string pyval) : M pyexc ContactResponse :=
  b ← pure_call (match sent with
                 | PyBool b => Ok b
                 | v => w_coerce_bool w v
                 end);
  mret {| id := doc_id; emailed := b; email_info := email_status |}.

Definition submit_contact (w : world) (env : gmap string string)
    (payload : Contactmessage) : M exn ContactResponse :=
  doc_id ← try_except
              (do_call (CreateDocument "contactmessage" payload)
                       (w_create_document w "contactmessage" payload))
              (fun e => raise (HTTPException 500
                                 ("Database error: " +:+ exc_str e)));
  email_status ← uncaught (try_send_email w env payload);
  uncaught (make_ContactResponse w doc_id (get_sent email_status) email_status).

(** ** What FastAPI makes of a handler's outcome *)

Inductive http_body (A : Type) :=
| Json (a : A)
| Detail (detail : string)
| InternalServerError.
Arguments Json {A} a.
Arguments Detail {A} detail.
Arguments InternalServerError {A}.

Definition respond {A} (r : result exn A) : Z * http_body A :=
  match r with
  | Ok a => (200, Json a)
  | Raise (HTTPException status_code detail) => (status_code, Detail detail)
  | Raise (Uncaught _) => (500, InternalServerError)
  end.

(** POST /api/contact *)
Definition post_api_contact (w : world) (env : gmap string string)
    (payload : Contactmessage) : Z * http_body ContactResponse :=
  respond (outcome (submit_contact w env payload)).

(** ** [test_database]

    The handler fills a [response] dictionary in place, also inside [try]
    blocks: what was stored before an exception stays stored.  [D] threads
    the dictionary through the steps. *)

Definition D (A : Type) : Type :=
  gmap string pyval -> (result pyexc A * list event) * gmap string pyval.

#[global] Instance D_ret : MRet D := fun A a response => ((Ok a, []), response).

#[global] Instance D_bind : MBind D := fun A B f m response =>
  match m response with
  | ((Ok a, t), response') =>
      let '((r, t'), response'') := f a response' in ((r, t ++ t'), response'')
  | ((Raise e, t), response') => ((Raise e, t), response')
  end.

(** [response[k] = v] *)
Definition setitem (k : string) (v : pyval) : D unit :=
  fun response => ((Ok tt, []), <[k := v]> response).

Definition D_call {A} (c : call) (r : result pyexc A) : D A :=
  fun response => (do_call c r, response).

Definition D_pure {A} (r : result pyexc A) : D A :=
  fun response => (pure_call r, response).

(** [try: m  except Exception as e: h e], keeping the stores [m] made. *)
Definition D_try_except {A} (m : D A) (h : pyexc -> D A) : D A :=
  fun response =>
    match m response with
    | ((Ok a, t), response') => ((Ok a, t), response')
    | ((Raise e, t), response') =>
        let '((r, t'), response'') := h e response' in ((r, t ++ t'), response'')
    end.

(** [return response] *)
Definition D_return_response : D (gmap string pyval) :=
  fun response => ((Ok response, []), response).

Definition initial_response : gmap string pyval :=
  {[ "backend" := PyStr "✅ Running";
     "database" := PyStr "❌ Not Available";
     "database_url" := PyNone;
     "database_name" := PyNone;
     "connection_status" := PyStr "Not Connected";
     "collections" := PyList [] ]}.

Definition is_ImportError (e : pyexc) : bool :=
  match exc_cls e with ImportError => true | _ => false end.

Definition test_database (w : world) (env : gmap string string)
    : M pyexc (gmap string pyval) :=
  fst
   ((_ ← D_try_except
          (db ← D_call ImportDb (w_import_db w);
           match db with
           | Some db =>
               _ ← setitem "database" (PyStr "✅ Available");
               _ ← setitem "database_url" (PyStr "✅ Configured");
               db_name_or ← match db_name db with
                            | Some attr => D_pure attr
                            | None => mret (PyStr "✅ Connected")
                            end;
               _ ← setitem "database_name" db_name_or;
               _ ← setitem "connection_status" (PyStr "Connected");
               D_try_except
                 (collections ← D_call ListCollectionNames
                                       (db_list_collection_names db);
                  _ ← setitem "collections"
                              (PyList (list_slice_to 10 collections));
                  setitem "database" (PyStr "✅ Connected & Working"))
                 (fun e =>
                    setitem "database"
                      (PyStr ("⚠️  Connected but Error: "
                              +:+ slice_to 50 (exc_str e))))
           | None =>
               setitem "database" (PyStr "⚠️  Available but not initialized")
           end)
          (fun e =>
             if is_ImportError e then
               setitem "database"
                 (PyStr "❌ Database module not found (run enable-database first)")
             else
               setitem "database"
                 (PyStr ("❌ Error: " +:+ slice_to 50 (exc_str e))));
     _ ← setitem "database_url"
           (PyStr (if truthy (getenv env "DATABASE_URL")
                   then "✅ Set" else "❌ Not Set"));
     _ ← setitem "database_name"
           (PyStr (if truthy (getenv env "DATABASE_NAME")
                   then "✅ Set" else "❌ Not Set"));
     D_return_response) initial_response).

(** GET /test *)
Definition get_test (w : world) (env : gmap string string)
    : Z * http_body (gmap string pyval) :=
  respond (outcome (uncaught (test_database w env))).

(** ** Sample inputs *)

Definition sample_payload : Contactmessage :=
  {| name := "A"; email := "a@x.com"; subject := Some "Hi";
     message := "hello" |}.

Definition sample_db : db_handle :=
  {| db_name := Some (Ok (PyStr "portfolio"));
     db_list_collection_names :=
       Ok ["c01"; "c02"; "c03"; "c04"; "c05"; "c06"; "c07"; "c08"; "c09";
           "c10"; "c11"; "c12"] |}.

(** Every collaborator answers. *)
Definition w_up : world :=
  {| w_python := cpython_3_11;
     w_create_document := fun _ _ => Ok "65f0c2a1e4b0a1b2c3d4e5f6";
     w_import_db := Ok (Some sample_db);
     w_set_header := fun _ _ => Ok tt;
     w_set_content := fun _ => Ok tt;
     w_smtp_connect := fun _ _ _ => Ok tt;
     w_starttls := Ok tt;
     w_login := fun _ _ => Ok tt;
     w_send_message := fun _ => Ok tt;
     w_smtp_exit := Ok tt;
     w_coerce_bool := fun _ => Raise (PyExc ValueError "not a valid boolean") |}.

(** The store refuses the write, with a message of [n] characters. *)
Definition w_store_down (n : nat) : world :=
  {| w_python := w_python w_up;
     w_create_document := fun _ _ =>
       Raise (PyExc OtherException (string_of_list_ascii (replicate n "x"%char)));
     w_import_db := Raise (PyExc ImportError "No module named 'database'");
     w_set_header := w_set_header w_up;
     w_set_content := w_set_content w_up;
     w_smtp_connect := w_smtp_connect w_up;
     w_starttls := w_starttls w_up;
     w_login := w_login w_up;
     w_send_message := w_send_message w_up;
     w_smtp_exit := w_smtp_exit w_up;
     w_coerce_bool := w_coerce_bool w_up |}.

Definition env_smtp : gmap string string :=
  {[ "SMTP_HOST" := "smtp.example.com"; "SMTP_USER" := "mailer";
     "SMTP_PASS" := "secret" ]}.

Definition env_smtp_anonymous : gmap string string :=
  {[ "SMTP_HOST" := "smtp.example.com"; "SMTP_USER" := "mailer" ]}.

(** ** The remaining handlers and the entry point *)

(** GET / (lines 24-26) *)
Definition read_root : gmap string pyval :=
  {[ "message" := PyStr "Hello from FastAPI Backend!" ]}.

(** GET /api/hello (lines 29-31) *)
Definition hello : gmap string pyval :=
  {[ "message" := PyStr "Hello from the backend API!" ]}.

(** Lines 138-142: the arguments [host] and [port] with which
    [uvicorn.run] is reached, or the exception that ends the process before
    it.  [os.getenv("PORT", 8000)] is the integer 8000 when the variable is
    unset, and [int] of an integer is that integer. *)
Definition main (py : interpreter) (env : gmap string string)
    : result pyexc (string * Z) :=
  match (match getenv env "PORT" with
         | Some s => int py s
         | None => Ok 8000
         end) with
  | Ok port => Ok ("0.0.0.0", port)
  | Raise e => Raise e
  end.

(** The import returned a handle whose [name], if it has one, can be read:
    the point of [test_database] where the collections are listed. *)
Definition handle_usable (w : world) : bool :=
  match w_import_db w with
  | Ok (Some db) =>
      match db_name db with
      | Some (Raise _) => false
      | _ => true
      end
  | _ => false
  end.

(** ** Kinds of logged calls *)

Definition is_connect (ev : event) : bool :=
  match ev with Call (SMTPConnect _ _ _) _ => true | _ => false end.

Definition is_login (ev : event) : bool :=
  match ev with Call (Login _ _) _ => true | _ => false end.

Definition is_send (ev : event) : bool :=
  match ev with Call (SendMessage _) _ => true | _ => false end.

(** A call of the session that comes before the sending of the message. *)
Definition is_before_send (c : call) : bool :=
  match c with
  | SMTPConnect _ _ _ | StartTLS | Login _ _ => true
  | _ => false
  end.

(** ** More sample worlds *)

(** The world [w_up] with the given answers of the SMTP server. *)
Definition w_smtp (connect starttls login send exit : result pyexc unit)
    : world :=
  {| w_python := w_python w_up;
     w_create_document := w_create_document w_up;
     w_import_db := w_import_db w_up;
     w_set_header := w_set_header w_up;
     w_set_content := w_set_content w_up;
     w_smtp_connect := fun _ _ _ => connect;
     w_starttls := starttls;
     w_login := fun _ _ => login;
     w_send_message := fun _ => send;
     w_smtp_exit := exit;
     w_coerce_bool := w_coerce_bool w_up |}.

(** The world [w_up] with the given outcome of [from database import db]. *)
Definition w_db (import : result pyexc (option db_handle)) : world :=
  {| w_python := w_python w_up;
     w_create_document := w_create_document w_up;
     w_import_db := import;
     w_set_header := w_set_header w_up;
     w_set_content := w_set_content w_up;
     w_smtp_connect := w_smtp_connect w_up;
     w_starttls := w_starttls w_up;
     w_login := w_login w_up;
     w_send_message := w_send_message w_up;
     w_smtp_exit := w_smtp_exit w_up;
     w_coerce_bool := w_coerce_bool w_up |}.

Definition has_line_break (s : string) : bool :=
  existsb (fun c => (nat_of_ascii c =? 10)%nat || (nat_of_ascii c =? 13)%nat)
          (list_ascii_of_string s).

(** The world [w_up] with an [email] package that refuses header values
    holding a line break. *)
Definition w_strict_headers : world :=
  {| w_python := w_python w_up;
     w_create_document := w_create_document w_up;
     w_import_db := w_import_db w_up;
     w_set_header := fun _ value =>
       if has_line_break value
       then Raise (PyExc ValueError
                     "Header values may not contain linefeed or carriage return characters")
       else Ok tt;
     w_set_content := w_set_content w_up;
     w_smtp_connect := w_smtp_connect w_up;
     w_starttls := w_starttls w_up;
     w_login := w_login w_up;
     w_send_message := w_send_message w_up;
     w_smtp_exit := w_smtp_exit w_up;
     w_coerce_bool := w_coerce_bool w_up |}.

Definition refused : pyexc :=
  PyExc OtherException "[Errno 111] Connection refused".

(** A subject that smuggles a second header. *)
Definition injecting_payload : Contactmessage :=
  {| name := "A"; email := "a@x.com";
     subject := Some ("Hi" +:+ nl +:+ "Bcc: all@x.com");
     message := "hello" |}.

(** [SMTP_FROM] is set, to the empty string. *)
Definition env_empty_from : gmap string string :=
  {[ "SMTP_HOST" := "smtp.example.com"; "SMTP_FROM" := EmptyString ]}.

Definition blank_subject_payload : Contactmessage :=
  {| name := "A"; email := "a@x.com"; subject := Some EmptyString;
     message := "hello" |}.

(** A handle whose listing fails with a long message. *)
Definition broken_db : db_handle :=
  {| db_name := None;
     db_list_collection_names :=
       Raise (PyExc OtherException
                "localhost:27017: [Errno 111] Connection refused, Timeout: 30s, Topology Description: unknown") |}.

(** * Properties *)

Example int_587 (py : interpreter) : int py "587" = Ok 587.
Proof. reflexivity. Qed.

Example int_spaces_sign (py : interpreter) : int py " -2_5 " = Ok (-25).
Proof. reflexivity. Qed.

Example int_abc (py : interpreter) :
  int py "abc" =
  Raise (PyExc ValueError "invalid literal for int() with base 10: 'abc'").
Proof. reflexivity. Qed.

Example int_empty (py : interpreter) :
  int py EmptyString = Raise (invalid_literal EmptyString).
Proof. reflexivity. Qed.

Example int_trailing_underscore (py : interpreter) :
  int py "25_" = Raise (invalid_literal "25_").
Proof. reflexivity. Qed.

(** The separator characters 28 to 31 are no spaces for [int]. *)
Example int_file_separator (py : interpreter) :
  int py (String (ascii_of_nat 28) "25") =
  Raise (PyExc ValueError "invalid literal for int() with base 10: '\x1c25'").
Proof. reflexivity. Qed.

(** A text with a single quote is shown in double quotes. *)
Example int_quote (py : interpreter) :
  int py "a'b" =
  Raise (PyExc ValueError
           ("invalid literal for int() with base 10: "
            +:+ String double_quote ("a'b" +:+ String double_quote EmptyString))).
Proof. reflexivity. Qed.

Example int_digit_limit :
  int cpython_3_11 (string_of_list_ascii (replicate 4300 "9"%char))
    = Ok (10 ^ 4300 - 1) /\
  int cpython_3_11 (string_of_list_ascii (replicate 4301 "9"%char))
    = Raise (PyExc ValueError
               "Exceeds the limit (4300 digits) for integer string conversion: value has 4301 digits; use sys.set_int_max_str_digits() to increase the limit").
Proof. split; vm_compute; reflexivity. Qed.

(** Whatever [int] raises is a [ValueError]. *)
Lemma int_raises_ValueError (py : interpreter) (s : string) (e : pyexc) :
  int py s = Raise e -> exc_cls e = ValueError.
Proof.
  unfold int, int_ascii.
  destruct (is_ascii s).
  - destruct (parse_literal _ _); intros [= <-]; reflexivity.
  - destruct (int_unicode py s); intros [= <-]; reflexivity.
Qed.

(** ** The notifier *)

Section Notifier.

Context (w : world) (env : gmap string string) (payload : Contactmessage).

(** The configuration is read or the port literal is rejected; nothing else
    can happen on lines 84-89. *)
Lemma read_smtp_config_cases :
  (exists port,
      int (w_python w) (getenv_d env "SMTP_PORT" "587") = Ok port /\
      exists cfg, read_smtp_config (w_python w) env payload = Ok cfg /\
                  smtp_port cfg = port /\
                  smtp_host cfg = getenv env "SMTP_HOST" /\
                  smtp_user cfg = getenv env "SMTP_USER" /\
                  smtp_pass cfg = getenv env "SMTP_PASS") \/
  (exists msg,
      read_smtp_config (w_python w) env payload = Raise (PyExc ValueError msg)).
Proof.
  unfold read_smtp_config.
  destruct (int _ _) as [port|e] eqn:Hint.
  - left. exists port. split; [reflexivity|]. eexists. repeat split.
  - right. apply int_raises_ValueError in Hint.
    destruct e as [cls msg]. cbn in Hint. subst cls. eexists. reflexivity.
Qed.

(** A rejected port literal leaves [try_send_email] by that exception,
    before anything else is done. *)
Lemma try_send_email_port_error e :
  read_smtp_config (w_python w) env payload = Raise e ->
  try_send_email w env payload = (Raise e, [Notify payload]).
Proof.
  intros H. unfold try_send_email. rewrite H. reflexivity.
Qed.

(** Without a host the notifier returns the skip status and calls nobody. *)
Lemma try_send_email_skips cfg :
  read_smtp_config (w_python w) env payload = Ok cfg ->
  truthy (smtp_host cfg) = false ->
  try_send_email w env payload = (Ok not_configured, [Notify payload]).
Proof.
  intros H Hh. unfold try_send_email. rewrite H. cbn. rewrite Hh. reflexivity.
Qed.

End Notifier.

(** ** Running the notifier against an arbitrary world *)

(** Split on every answer of the world that the goal inspects. *)
Ltac world_cases :=
  repeat match goal with
  | |- context [match ?r with Ok _ => _ | Raise _ => _ end] =>
      destruct r as [[]|?]; cbn
  | |- context [if ?b then _ else _] => destruct b eqn:?; cbn
  end.

Ltac unfold_notifier :=
  unfold try_send_email, build_message, smtp_session, try_except, with_exit,
    pure_call, do_call, log; cbn.

(** Decompose membership in a log that is a literal list. *)
Ltac in_log H :=
  repeat (apply elem_of_cons in H as [H|H]; [try discriminate H|]);
  try (apply elem_of_nil in H; destruct H).

Section NotifierRuns.

Context (w : world) (env : gmap string string) (payload : Contactmessage).

(** Once the configuration is read, the notifier returns one of its three
    status dictionaries. *)
Lemma try_send_email_returns_status cfg :
  read_smtp_config (w_python w) env payload = Ok cfg ->
  exists status,
    outcome (try_send_email w env payload) = Ok status /\
    (status = not_configured \/
     status = {[ "sent" := PyBool true ]} \/
     exists reason,
       status = {[ "sent" := PyBool false; "reason" := PyStr reason ]}).
Proof.
  intros H. unfold_notifier. rewrite H. cbn.
  world_cases; eexists; (split; [reflexivity|]); eauto.
Qed.


(** Whatever is sent or connected to comes from the configuration. *)
Lemma try_send_email_uses_config cfg ev :
  read_smtp_config (w_python w) env payload = Ok cfg ->
  ev ∈ trace (try_send_email w env payload) ->
  match ev with
  | Call (SMTPConnect host port timeout) _ =>
      host = the_str (smtp_host cfg) /\ port = smtp_port cfg /\ timeout = 15
  | Call (SendMessage msg) _ =>
      msg_from msg = smtp_from cfg /\ msg_to msg = smtp_to cfg /\
      msg_subject msg = email_subject payload /\
      msg_content msg = email_content payload
  | Call (Login user password) _ =>
      user = the_str (smtp_user cfg) /\ password = the_str (smtp_pass cfg)
  | _ => True
  end.
Proof.
  intros H. unfold_notifier. rewrite H. cbn.
  world_cases; intros Hin; in_log Hin; subst ev; auto.
Qed.

End NotifierRuns.

(** C1 (as the code behaves).  With [SMTP_PORT] set to the empty string and
    a host configured, [try_send_email] does not return a status: the
    [ValueError] of [int] leaves the function, whatever the collaborators
    do and whatever the payload is. *)
Theorem try_send_email_raises_on_empty_port (w : world) (p : Contactmessage) :
  try_send_email w {[ "SMTP_HOST" := "smtp.example.com"; "SMTP_PORT" := EmptyString ]} p =
  (Raise (PyExc ValueError "invalid literal for int() with base 10: ''"),
   [Notify p]).
Proof. apply try_send_email_port_error. reflexivity. Qed.

(** C2 (as the code behaves).  With [SMTP_HOST] unset and [SMTP_PORT] set to
    a service name, the notifier raises instead of returning the skip
    status, and the request ends in a bare 500. *)
Theorem try_send_email_unconfigured_raises (w : world) (p : Contactmessage) :
  let env : gmap string string := {[ "SMTP_PORT" := "smtp" ]} in
  getenv env "SMTP_HOST" = None /\
  try_send_email w env p =
    (Raise (PyExc ValueError "invalid literal for int() with base 10: 'smtp'"),
     [Notify p]) /\
  outcome (try_send_email w env p) <> Ok not_configured.
Proof.
  intros env. split; [reflexivity|].
  assert (try_send_email w env p =
          (Raise (PyExc ValueError
                    "invalid literal for int() with base 10: 'smtp'"),
           [Notify p])) as ->
    by (apply try_send_email_port_error; reflexivity).
  split; [reflexivity|discriminate].
Qed.

(** C9.  [int] is applied to [SMTP_PORT] before the host is looked at:
    whenever [SMTP_PORT] is set to a text that [int] rejects, one that is no
    integer literal, [try_send_email] raises that exception, a
    [ValueError], in every environment (with or without [SMTP_HOST]) and
    every world; no collaborator has been called by then. *)
Theorem try_send_email_bad_port_raises
    (w : world) (env : gmap string string) (p : Contactmessage) (s : string)
    (e : pyexc) :
  env !! "SMTP_PORT" = Some s ->
  int (w_python w) s = Raise e ->
  exc_cls e = ValueError /\
  try_send_email w env p = (Raise e, [Notify p]).
Proof.
  intros Hs Hint. split; [exact (int_raises_ValueError _ _ _ Hint)|].
  apply try_send_email_port_error.
  unfold read_smtp_config, getenv_d. rewrite Hs, Hint. reflexivity.
Qed.

Lemma try_send_email_bad_port_raises_witness :
  try_send_email w_up {[ "SMTP_PORT" := "abc" ]} sample_payload =
    (Raise (PyExc ValueError "invalid literal for int() with base 10: 'abc'"),
     [Notify sample_payload]).
Proof.
  apply (try_send_email_bad_port_raises w_up {[ "SMTP_PORT" := "abc" ]}
           sample_payload "abc"
           (PyExc ValueError "invalid literal for int() with base 10: 'abc'"));
    reflexivity.
Defined.

(** ** The SMTP session *)

(** C6, refuted as stated.  The host and both credentials are configured
    and the server refuses the connection: the log ends with the failed
    connection, so there is no TLS upgrade and no login. *)
Lemma try_send_email_refused_connection :
  truthy (getenv env_smtp "SMTP_HOST") = true /\
  truthy (getenv env_smtp "SMTP_USER")
    && truthy (getenv env_smtp "SMTP_PASS") = true /\
  trace (try_send_email (w_smtp (Raise refused) (Ok tt) (Ok tt) (Ok tt) (Ok tt))
           env_smtp sample_payload) =
    [Notify sample_payload;
     Call (SMTPConnect "smtp.example.com" 587 15) false].
Proof. repeat split. Qed.

(** C6, amended.  With [SMTP_HOST] configured, a port that [int] accepts
    and a message the [email] package accepts, the log of the run is fixed
    by the answers of the server: the connection to the configured host and
    port with timeout 15 is always opened; once connected, STARTTLS is
    issued and the session is closed at the end; once upgraded, [login]
    with the configured credentials is called if and only if [SMTP_USER]
    and [SMTP_PASS] are both present and non-empty; the message is sent
    right after the upgrade when a credential is missing, and after a
    [login] that returned otherwise. *)
Theorem try_send_email_session
    (w : world) (env : gmap string string) (payload : Contactmessage)
    (port : Z) (msg : EmailMessage) :
  truthy (getenv env "SMTP_HOST") = true ->
  int (w_python w) (getenv_d env "SMTP_PORT" "587") = Ok port ->
  outcome (build_message w payload
             (getenv_d env "SMTP_FROM" (email payload))
             (getenv_d env "SMTP_TO" "studynotion.dev@gmail.com")) = Ok msg ->
  let host := the_str (getenv env "SMTP_HOST") in
  let user := getenv env "SMTP_USER" in
  let password := getenv env "SMTP_PASS" in
  let authenticate := truthy user && truthy password in
  let connected := is_ok (w_smtp_connect w host port 15) in
  let upgraded := is_ok (w_starttls w) in
  let logged_in := is_ok (w_login w (the_str user) (the_str password)) in
  let log := trace (try_send_email w env payload) in
  log =
    Notify payload
    :: Call (SMTPConnect host port 15) connected
    :: (if connected then
          Call StartTLS upgraded
          :: (if upgraded then
                (if authenticate
                 then [Call (Login (the_str user) (the_str password)) logged_in]
                 else [])
                ++ (if authenticate && negb logged_in
                    then []
                    else [Call (SendMessage msg)
                               (is_ok (w_send_message w msg))])
              else [])
          ++ [Call SMTPExit (is_ok (w_smtp_exit w))]
        else []) /\
  ((exists u pw ok, Call (Login u pw) ok ∈ log)
   <-> connected && upgraded && authenticate = true) /\
  ((exists ok, Call (SendMessage msg) ok ∈ log)
   <-> connected && upgraded && (negb authenticate || logged_in) = true).
Proof.
  intros Hhost Hport Hmsg host user password authenticate connected upgraded
    logged_in log.
  subst host user password authenticate connected upgraded logged_in log.
  revert Hmsg. unfold the_str.
  unfold_notifier.
  assert (read_smtp_config (w_python w) env payload =
            Ok {| smtp_host := getenv env "SMTP_HOST";
                  smtp_port := port;
                  smtp_user := getenv env "SMTP_USER";
                  smtp_pass := getenv env "SMTP_PASS";
                  smtp_from := getenv_d env "SMTP_FROM" (email payload);
                  smtp_to := getenv_d env "SMTP_TO" "studynotion.dev@gmail.com" |})
    as -> by (unfold read_smtp_config; rewrite Hport; reflexivity).
  cbn. rewrite Hhost. cbn.
  repeat match goal with
         | |- context [match w_set_header ?w0 ?k ?v with _ => _ end] =>
             destruct (w_set_header w0 k v) as [[]|?]; cbn
         | |- context [match w_set_content ?w0 ?v with _ => _ end] =>
             destruct (w_set_content w0 v) as [[]|?]; cbn
         end; intros [= <-].
  world_cases.
  all: split; [reflexivity|].
  all: split; split.
  all: try reflexivity; try discriminate.
  all: try (intros (? & ? & ? & Hl); in_log Hl; fail).
  all: try (intros (? & Hl); in_log Hl; fail).
  all: try (intros _; eexists _, _, _; repeat constructor).
  all: try (intros _; eexists; repeat constructor).
Qed.

Lemma try_send_email_session_witness :
  trace (try_send_email w_up env_smtp sample_payload) =
    [Notify sample_payload;
     Call (SMTPConnect "smtp.example.com" 587 15) true;
     Call StartTLS true;
     Call (Login "mailer" "secret") true;
     Call (SendMessage
             {| msg_subject := "New portfolio contact: Hi";
                msg_from := "a@x.com";
                msg_to := "studynotion.dev@gmail.com";
                msg_content := email_content sample_payload |}) true;
     Call SMTPExit true].
Proof.
  exact (proj1 (try_send_email_session w_up env_smtp sample_payload 587
                  {| msg_subject := "New portfolio contact: Hi";
                     msg_from := "a@x.com";
                     msg_to := "studynotion.dev@gmail.com";
                     msg_content := email_content sample_payload |}
                  eq_refl eq_refl eq_refl)).
Defined.

(** With the password missing the session goes from STARTTLS straight to
    the message. *)
Example try_send_email_anonymous_log :
  trace (try_send_email w_up env_smtp_anonymous sample_payload) =
    [Notify sample_payload;
     Call (SMTPConnect "smtp.example.com" 587 15) true;
     Call StartTLS true;
     Call (SendMessage
             {| msg_subject := "New portfolio contact: Hi";
                msg_from := "a@x.com";
                msg_to := "studynotion.dev@gmail.com";
                msg_content := email_content sample_payload |}) true;
     Call SMTPExit true].
Proof. reflexivity. Qed.

(** ** Configuration defaults *)

(** C7.  With [SMTP_PORT] unset the configuration is read and its port is
    587; with [SMTP_FROM] unset the sender is the submitter's address; with
    [SMTP_TO] unset the recipient is the fixed address.  These are the
    values the run uses: every connection and every message in the log
    carries the configured host, port and addresses. *)
Theorem read_smtp_config_defaults
    (w : world) (env : gmap string string) (payload : Contactmessage) :
  (env !! "SMTP_PORT" = None ->
   exists cfg, read_smtp_config (w_python w) env payload = Ok cfg /\ smtp_port cfg = 587) /\
  (forall cfg, read_smtp_config (w_python w) env payload = Ok cfg ->
     (env !! "SMTP_FROM" = None -> smtp_from cfg = email payload) /\
     (env !! "SMTP_TO" = None -> smtp_to cfg = "studynotion.dev@gmail.com") /\
     (forall host port timeout ok,
        Call (SMTPConnect host port timeout) ok
          ∈ trace (try_send_email w env payload) ->
        port = smtp_port cfg) /\
     (forall msg ok,
        Call (SendMessage msg) ok ∈ trace (try_send_email w env payload) ->
        msg_from msg = smtp_from cfg /\ msg_to msg = smtp_to cfg)).
Proof.
  split.
  - intros Hport. unfold read_smtp_config, getenv_d. rewrite Hport.
    eexists. split; reflexivity.
  - intros cfg Hcfg. split; [|split; [|split]].
    + intros Hfrom. revert Hcfg. unfold read_smtp_config, getenv_d.
      rewrite Hfrom. destruct (int _); [|discriminate].
      intros [= <-]. reflexivity.
    + intros Hto. revert Hcfg. unfold read_smtp_config, getenv_d.
      rewrite Hto. destruct (int _); [|discriminate].
      intros [= <-]. reflexivity.
    + intros host port timeout ok Hin.
      apply (try_send_email_uses_config w env payload cfg _ Hcfg) in Hin.
      cbn in Hin. tauto.
    + intros msg ok Hin.
      apply (try_send_email_uses_config w env payload cfg _ Hcfg) in Hin.
      cbn in Hin. tauto.
Qed.

Lemma read_smtp_config_defaults_witness :
  exists cfg,
    read_smtp_config (w_python w_up) env_smtp sample_payload = Ok cfg /\
    smtp_port cfg = 587 /\
    smtp_from cfg = "a@x.com" /\
    smtp_to cfg = "studynotion.dev@gmail.com" /\
    trace (try_send_email w_up env_smtp sample_payload) !! 1%nat =
      Some (Call (SMTPConnect "smtp.example.com" (smtp_port cfg) 15) true).
Proof.
  destruct (read_smtp_config_defaults w_up env_smtp sample_payload)
    as [Hport Hrest].
  destruct (Hport eq_refl) as (cfg & Hcfg & Hp).
  destruct (Hrest cfg Hcfg) as (Hfrom & Hto & Hconn & _).
  exists cfg. split; [exact Hcfg|]. split; [exact Hp|].
  split; [exact (Hfrom eq_refl)|]. split; [exact (Hto eq_refl)|].
  rewrite <- (Hconn "smtp.example.com" 587 15 true).
  - reflexivity.
  - vm_compute. repeat constructor.
Defined.

(** ** The contact handler *)

Section Contact.

Context (w : world) (env : gmap string string) (payload : Contactmessage).

(** A failing store write: the handler raises the 500 and has done nothing
    else. *)
Lemma submit_contact_store_error e :
  w_create_document w "contactmessage" payload = Raise e ->
  submit_contact w env payload =
    (Raise (HTTPException 500 ("Database error: " +:+ exc_str e)),
     [Call (CreateDocument "contactmessage" payload) false]).
Proof.
  intros H. unfold submit_contact, try_except, do_call. rewrite H. reflexivity.
Qed.


(** The response built from a status dictionary whose ["sent"] entry, if
    any, is a boolean. *)
Lemma make_ContactResponse_get_sent doc_id (status : gmap string pyval) :
  match status !! "sent" with
  | Some (PyBool _) | None => True
  | _ => False
  end ->
  outcome (make_ContactResponse w doc_id (get_sent status) status) =
    Ok {| id := doc_id;
          emailed := match status !! "sent" with
                     | Some (PyBool b) => b
                     | _ => false
                     end;
          email_info := status |}.
Proof.
  unfold make_ContactResponse, get_sent.
  destruct (status !! "sent") as [[]|]; cbn; intros []; reflexivity.
Qed.

(** With the store write done and the configuration read, the request
    succeeds and reports the notifier's status. *)
Lemma submit_contact_returns doc_id cfg :
  w_create_document w "contactmessage" payload = Ok doc_id ->
  read_smtp_config (w_python w) env payload = Ok cfg ->
  exists status sent,
    outcome (try_send_email w env payload) = Ok status /\
    status !! "sent" = Some (PyBool sent) /\
    outcome (submit_contact w env payload) =
      Ok {| id := doc_id; emailed := sent; email_info := status |}.
Proof.
  intros Hdoc Hcfg.
  destruct (try_send_email_returns_status w env payload cfg Hcfg)
    as (status & Hst & Hshape).
  assert (exists sent, status !! "sent" = Some (PyBool sent)) as [sent Hsent].
  { destruct Hshape as [->|[->|[reason ->]]]; eexists; reflexivity. }
  exists status, sent. split; [exact Hst|]. split; [exact Hsent|].
  pose proof (make_ContactResponse_get_sent doc_id status) as Hresp.
  rewrite Hsent in Hresp. specialize (Hresp I). revert Hst Hresp.
  unfold submit_contact, try_except, do_call. rewrite Hdoc.
  destruct (try_send_email w env payload) as [r t].
  cbn -[make_ContactResponse]. intros ->. cbn -[make_ContactResponse].
  destruct (make_ContactResponse _ _ _ _) as [r' t']; cbn. intros ->.
  reflexivity.
Qed.

(** Without a host, a response that is returned says [emailed = false] and
    carries the skip status. *)
Lemma submit_contact_unconfigured r :
  truthy (getenv env "SMTP_HOST") = false ->
  outcome (submit_contact w env payload) = Ok r ->
  emailed r = false /\ email_info r = not_configured.
Proof.
  intros Hh.
  destruct (read_smtp_config_cases w env payload)
    as [(port & _ & cfg & Hcfg & _ & Hhost & _)|[m Hc]].
  - rewrite <- Hhost in Hh.
    pose proof (try_send_email_skips w env payload cfg Hcfg Hh) as Hrun.
    unfold submit_contact, try_except, do_call. rewrite Hrun.
    destruct (w_create_document w "contactmessage" payload); [|discriminate].
    cbn. intros [= <-]. split; reflexivity.
  - unfold submit_contact, try_except, do_call.
    rewrite (try_send_email_port_error w env payload _ Hc).
    destruct (w_create_document w "contactmessage" payload); discriminate.
Qed.

End Contact.



(** C4 (as the code behaves).  The store write succeeds and returns an id,
    yet with [SMTP_PORT] set to ["587.0"] the handler returns no response:
    the [ValueError] raised in the notifier leaves [submit_contact], after
    the document was written. *)
Theorem submit_contact_raises_after_persisting :
  let env : gmap string string := {[ "SMTP_PORT" := "587.0" ]} in
  w_create_document w_up "contactmessage" sample_payload =
    Ok "65f0c2a1e4b0a1b2c3d4e5f6" /\
  submit_contact w_up env sample_payload =
    (Raise (Uncaught (PyExc ValueError
                        "invalid literal for int() with base 10: '587.0'")),
     [Call (CreateDocument "contactmessage" sample_payload) true;
      Notify sample_payload]) /\
  post_api_contact w_up env sample_payload = (500, InternalServerError).
Proof. repeat split. Qed.

(** ** The detail of the persistence error *)

Lemma string_length_app (s1 s2 : string) :
  String.length (s1 +:+ s2) = (String.length s1 + String.length s2)%nat.
Proof.
  induction s1 as [|c s1 IH]; [reflexivity|].
  change (S (String.length (s1 +:+ s2)) =
          S (String.length s1 + String.length s2)).
  f_equal. exact IH.
Qed.

Lemma py_len_app (s1 s2 : string) :
  py_len (s1 +:+ s2) = (py_len s1 + py_len s2)%nat.
Proof.
  induction s1 as [|c s1 IH]; [reflexivity|].
  change (((if is_continuation c then 0 else 1) + py_len (s1 +:+ s2))%nat =
          ((if is_continuation c then 0 else 1) + py_len s1 + py_len s2)%nat).
  rewrite IH. lia.
Qed.

Lemma string_length_replicate (n : nat) (c : ascii) :
  String.length (string_of_list_ascii (replicate n c)) = n.
Proof.
  induction n as [|n IH]; cbn; [reflexivity|]. f_equal. exact IH.
Qed.

(** C5, refuted as stated: no bound on the length of the detail holds for
    all exception messages.  A store error whose message has [bound + 1]
    characters yields a detail of [16 + bound + 1] characters. *)
Lemma submit_contact_detail_unbounded :
  ~ exists bound : nat,
      forall (w : world) (env : gmap string string) (p : Contactmessage) e d,
        w_create_document w "contactmessage" p = Raise e ->
        outcome (submit_contact w env p) = Raise (HTTPException 500 d) ->
        (String.length d <= bound)%nat.
Proof.
  intros [bound H].
  specialize (H (w_store_down (S bound)) ∅ sample_payload _ _ eq_refl eq_refl).
  rewrite string_length_app in H. cbn [exc_str] in H.
  rewrite string_length_replicate in H. cbn in H. lia.
Qed.

(** C5, amended.  When the store write raises, the caller gets status 500
    with the detail ["Database error: "] followed by the whole text of the
    exception: 16 characters more than that text.  When the store write
    returns and [SMTP_PORT] is unset or holds a text that [int] accepts,
    the request succeeds with status 200. *)
Theorem submit_contact_error_detail
    (w : world) (env : gmap string string) (payload : Contactmessage) :
  (forall e, w_create_document w "contactmessage" payload = Raise e ->
     post_api_contact w env payload =
       (500, Detail ("Database error: " +:+ exc_str e)) /\
     String.length ("Database error: " +:+ exc_str e) =
       (16 + String.length (exc_str e))%nat /\
     py_len ("Database error: " +:+ exc_str e) =
       (16 + py_len (exc_str e))%nat) /\
  (forall doc_id port,
     w_create_document w "contactmessage" payload = Ok doc_id ->
     int (w_python w) (getenv_d env "SMTP_PORT" "587") = Ok port ->
     exists r, post_api_contact w env payload = (200, Json r)).
Proof.
  split.
  - intros e He. unfold post_api_contact.
    rewrite (submit_contact_store_error w env payload e He).
    split; [reflexivity|]. rewrite string_length_app, py_len_app.
    split; reflexivity.
  - intros doc_id port Hdoc Hport.
    destruct (read_smtp_config_cases w env payload)
      as [(port' & _ & cfg & Hcfg & _)|[m Hc]].
    + destruct (submit_contact_returns w env payload doc_id cfg Hdoc Hcfg)
        as (status & sent & _ & _ & Hout).
      eexists. unfold post_api_contact. rewrite Hout. reflexivity.
    + unfold read_smtp_config in Hc. rewrite Hport in Hc. discriminate.
Qed.

Lemma submit_contact_error_detail_witness :
  post_api_contact (w_store_down 60) env_smtp sample_payload =
    (500, Detail ("Database error: " +:+
                  "xxxxxxxxxxxxxxxxxxxxxxxxxxxxxxxxxxxxxxxxxxxxxxxxxxxxxxxxxxxx")) /\
  exists r, post_api_contact w_up env_smtp sample_payload = (200, Json r).
Proof.
  split.
  - apply (proj1 (submit_contact_error_detail
                    (w_store_down 60) env_smtp sample_payload) _ eq_refl).
  - apply (proj2 (submit_contact_error_detail w_up env_smtp sample_payload)
             "65f0c2a1e4b0a1b2c3d4e5f6" 587); reflexivity.
Defined.

(** ** The fields of a successful response *)

(** C10.  The response built on line 135 carries the status dictionary
    unchanged as [email_info]; [emailed] is the boolean stored under
    ["sent"], and [false] when the dictionary has no such key.  Every
    response that [submit_contact] returns is built this way from the
    dictionary that [try_send_email] returned, which has the key. *)
Theorem submit_contact_emailed_invariant
    (w : world) (env : gmap string string) (payload : Contactmessage) :
  (forall doc_id (status : gmap string pyval) r,
     outcome (make_ContactResponse w doc_id (get_sent status) status) = Ok r ->
     id r = doc_id /\
     email_info r = status /\
     (forall b, status !! "sent" = Some (PyBool b) -> emailed r = b) /\
     (status !! "sent" = None -> emailed r = false)) /\
  (forall r,
     outcome (submit_contact w env payload) = Ok r ->
     exists status,
       outcome (try_send_email w env payload) = Ok status /\
       email_info r = status /\
       status !! "sent" = Some (PyBool (emailed r))).
Proof.
  split.
  - intros doc_id status r.
    unfold make_ContactResponse, get_sent, pure_call.
    destruct (status !! "sent") as [[]|]; cbn;
      try destruct (w_coerce_bool _ _); cbn; intros [= <-]; cbn;
      repeat split; congruence.
  - intros r.
    destruct (read_smtp_config_cases w env payload)
      as [(port & _ & cfg & Hcfg & _)|[m Hc]].
    + unfold submit_contact, try_except, do_call.
      destruct (w_create_document w "contactmessage" payload)
        as [doc_id|e] eqn:Hdoc; [|discriminate].
      destruct (submit_contact_returns w env payload doc_id cfg Hdoc Hcfg)
        as (status & sent & Hst & Hsent & Hout).
      revert Hout. unfold submit_contact, try_except, do_call.
      rewrite Hdoc. intros -> [= <-]. exists status. cbn. auto.
    + unfold submit_contact, try_except, do_call.
      rewrite (try_send_email_port_error w env payload _ Hc).
      destruct (w_create_document w "contactmessage" payload); discriminate.
Qed.

Lemma submit_contact_emailed_invariant_witness :
  exists r status,
    outcome (submit_contact w_up env_smtp sample_payload) = Ok r /\
    outcome (try_send_email w_up env_smtp sample_payload) = Ok status /\
    email_info r = status /\
    status !! "sent" = Some (PyBool (emailed r)) /\
    emailed r = true.
Proof.
  eexists. 
  destruct (proj2 (submit_contact_emailed_invariant
                     w_up env_smtp sample_payload) _ eq_refl)
    as (status & Hst & Hinfo & Hsent).
  exists status. repeat split; assumption || reflexivity.
Defined.

(** ** The diagnostic endpoint *)

Ltac unfold_diagnostic :=
  unfold test_database, D_try_except, D_call, D_pure, D_return_response,
    setitem, do_call, pure_call, mbind, D_bind, mret, D_ret; cbn.

Ltac diagnostic_strings :=
  eexists; split; [reflexivity|]; split; [reflexivity|];
  repeat (split; [eexists; vm_compute; reflexivity|]).

Ltac diagnostic_no_listing :=
  split;
  [ exists []; split; [vm_compute; reflexivity|]; split; [cbn; lia|];
    intros ? ? ? ? Hin; in_log Hin
  | repeat constructor ].

(** C8.  In every world and environment [test_database] returns its
    dictionary and the endpoint answers 200 with it.  The five descriptive
    entries are strings; ["collections"] is a list of at most ten names,
    the first ten of the listing when the listing was made and returned.
    The handler only imports the handle and lists the collections: it makes
    no call that writes. *)
Theorem test_database_total (w : world) (env : gmap string string) :
  exists response,
    outcome (test_database w env) = Ok response /\
    get_test w env = (200, Json response) /\
    (exists s, response !! "backend" = Some (PyStr s)) /\
    (exists s, response !! "database" = Some (PyStr s)) /\
    (exists s, response !! "database_url" = Some (PyStr s)) /\
    (exists s, response !! "database_name" = Some (PyStr s)) /\
    (exists s, response !! "connection_status" = Some (PyStr s)) /\
    (exists names,
        response !! "collections" = Some (PyList names) /\
        (length names <= 10)%nat /\
        forall db listing,
          w_import_db w = Ok (Some db) ->
          db_list_collection_names db = Ok listing ->
          Call ListCollectionNames true ∈ trace (test_database w env) ->
          names = list_slice_to 10 listing) /\
    Forall (fun ev => is_db_read ev = true /\ is_write ev = false)
           (trace (test_database w env)).
Proof.
  unfold get_test, uncaught, outcome, trace. unfold_diagnostic.
  destruct (w_import_db w) as [[db|]|e]; cbn.
  - destruct (db_name db) as [[v|e]|]; cbn.
    + destruct (db_list_collection_names db) as [listing|e] eqn:Hl; cbn.
      * diagnostic_strings. split; [|repeat constructor].
        exists (list_slice_to 10 listing). split; [vm_compute; reflexivity|].
        split; [unfold list_slice_to; rewrite length_take; lia|].
        intros db' listing' [= <-] Hl' _. congruence.
      * diagnostic_strings. diagnostic_no_listing.
    + destruct (is_ImportError e); cbn; diagnostic_strings;
        diagnostic_no_listing.
    + destruct (db_list_collection_names db) as [listing|e] eqn:Hl; cbn.
      * diagnostic_strings. split; [|repeat constructor].
        exists (list_slice_to 10 listing). split; [vm_compute; reflexivity|].
        split; [unfold list_slice_to; rewrite length_take; lia|].
        intros db' listing' [= <-] Hl' _. congruence.
      * diagnostic_strings. diagnostic_no_listing.
  - diagnostic_strings. diagnostic_no_listing.
  - destruct (is_ImportError e); cbn; diagnostic_strings; diagnostic_no_listing.
Qed.

Lemma test_database_total_witness :
  exists response,
    outcome (test_database w_up ∅) = Ok response /\
    response !! "collections" =
      Some (PyList ["c01"; "c02"; "c03"; "c04"; "c05"; "c06"; "c07"; "c08";
                    "c09"; "c10"]).
Proof.
  destruct (test_database_total w_up ∅)
    as (response & Hout & _ & _ & _ & _ & _ & _ & (names & Hn & _ & Hl) & _).
  exists response. split; [exact Hout|].
  rewrite Hn, (Hl sample_db _ eq_refl eq_refl).
  - reflexivity.
  - vm_compute. repeat constructor.
Defined.

(** * Further properties of the notifier *)

Lemma read_smtp_config_ok (w : world) (env : gmap string string)
    (payload : Contactmessage) (port : Z) :
  int (w_python w) (getenv_d env "SMTP_PORT" "587") = Ok port ->
  read_smtp_config (w_python w) env payload =
    Ok {| smtp_host := getenv env "SMTP_HOST";
          smtp_port := port;
          smtp_user := getenv env "SMTP_USER";
          smtp_pass := getenv env "SMTP_PASS";
          smtp_from := getenv_d env "SMTP_FROM" (email payload);
          smtp_to := getenv_d env "SMTP_TO" "studynotion.dev@gmail.com" |}.
Proof. intros H. unfold read_smtp_config. rewrite H. reflexivity. Qed.

(** Start a proof about a run whose configuration was read. *)
Ltac run_notifier Hport :=
  unfold_notifier;
  rewrite (read_smtp_config_ok _ _ _ _ Hport); cbn.

(** X1.  With [SMTP_PORT] unset or holding a text that [int] accepts the
    notifier returns a dictionary in every world: ["sent"] holds a boolean,
    a ["reason"] string comes with [False] and no ["reason"] with [True]. *)
Theorem try_send_email_status_shape
    (w : world) (env : gmap string string) (payload : Contactmessage)
    (port : Z) :
  int (w_python w) (getenv_d env "SMTP_PORT" "587") = Ok port ->
  exists status sent,
    outcome (try_send_email w env payload) = Ok status /\
    status !! "sent" = Some (PyBool sent) /\
    (sent = false -> exists reason, status !! "reason" = Some (PyStr reason)) /\
    (sent = true -> status !! "reason" = None).
Proof.
  intros Hport.
  destruct (try_send_email_returns_status w env payload _
              (read_smtp_config_ok w env payload port Hport))
    as (status & Hout & [->|[->|[reason ->]]]).
  - exists not_configured, false. repeat split; eauto; discriminate.
  - exists {[ "sent" := PyBool true ]}, true. repeat split; eauto; discriminate.
  - eexists _, false. repeat split; eauto; discriminate.
Qed.

Lemma try_send_email_status_shape_witness :
  exists status sent,
    outcome (try_send_email
               (w_smtp (Raise refused) (Ok tt) (Ok tt) (Ok tt) (Ok tt))
               env_smtp sample_payload) = Ok status /\
    status !! "sent" = Some (PyBool sent).
Proof.
  destruct (try_send_email_status_shape
              (w_smtp (Raise refused) (Ok tt) (Ok tt) (Ok tt) (Ok tt))
              env_smtp sample_payload 587 eq_refl)
    as (status & sent & Hout & Hsent & _).
  exists status, sent. split; [exact Hout|exact Hsent].
Defined.

(** X2.  With [SMTP_HOST] unset or empty (and a port that [int] accepts) the
    notifier returns the skip status and calls no collaborator, whatever
    the other variables and the payload are. *)
Theorem try_send_email_skips_without_host
    (w : world) (env : gmap string string) (payload : Contactmessage)
    (port : Z) :
  int (w_python w) (getenv_d env "SMTP_PORT" "587") = Ok port ->
  truthy (getenv env "SMTP_HOST") = false ->
  try_send_email w env payload = (Ok not_configured, [Notify payload]) /\
  not_configured !! "sent" = Some (PyBool false) /\
  not_configured !! "reason" =
    Some (PyStr "SMTP not configured; skipped sending").
Proof.
  intros Hport Hhost. split; [|split; reflexivity].
  run_notifier Hport. rewrite Hhost. reflexivity.
Qed.

Lemma try_send_email_skips_without_host_witness :
  try_send_email w_up {[ "SMTP_HOST" := EmptyString; "SMTP_USER" := "mailer";
                         "SMTP_PASS" := "secret"; "SMTP_PORT" := " 25 " ]}
                 sample_payload =
    (Ok not_configured, [Notify sample_payload]).
Proof.
  apply (try_send_email_skips_without_host w_up _ sample_payload 25);
    reflexivity.
Defined.

(** X3.  Credentials and the message only travel after the TLS upgrade: if
    the log holds a [login] or a [send_message], it starts with the entry
    mark, the connection and a STARTTLS that returned, and that call comes
    after them. *)
Theorem try_send_email_tls_first
    (w : world) (env : gmap string string) (payload : Contactmessage)
    (ev : event) :
  ev ∈ trace (try_send_email w env payload) ->
  is_login ev || is_send ev = true ->
  exists port,
    take 3 (trace (try_send_email w env payload)) =
      [Notify payload;
       Call (SMTPConnect (the_str (getenv env "SMTP_HOST")) port 15) true;
       Call StartTLS true] /\
    ev ∈ drop 3 (trace (try_send_email w env payload)).
Proof.
  destruct (read_smtp_config_cases w env payload)
    as [(port & Hport & _)|[m Hc]].
  2: { rewrite (try_send_email_port_error w env payload _ Hc). cbn.
       intros Hin. in_log Hin. subst ev. discriminate. }
  intros Hin Hk. exists port. revert Hin.
  run_notifier Hport.
  world_cases; intros Hin; in_log Hin; subst ev; try discriminate Hk;
    (split; [reflexivity|]); cbn; repeat constructor.
Qed.

Lemma try_send_email_tls_first_witness :
  take 3 (trace (try_send_email w_up env_smtp sample_payload)) =
    [Notify sample_payload;
     Call (SMTPConnect "smtp.example.com" 587 15) true;
     Call StartTLS true].
Proof.
  destruct (try_send_email_tls_first w_up env_smtp sample_payload
              (Call (Login "mailer" "secret") true))
    as (port & Htake & _).
  - vm_compute. repeat constructor.
  - reflexivity.
  - reflexivity.
Defined.

(** X4.  One request opens at most one connection, logs in at most once and
    sends at most one message. *)
Theorem try_send_email_at_most_once
    (w : world) (env : gmap string string) (payload : Contactmessage) :
  let log := trace (try_send_email w env payload) in
  (length (List.filter is_connect log) <= 1)%nat /\
  (length (List.filter is_login log) <= 1)%nat /\
  (length (List.filter is_send log) <= 1)%nat.
Proof.
  cbn zeta. unfold_notifier.
  destruct (read_smtp_config (w_python w) env payload) as [cfg|e]; cbn; [|lia].
  world_cases; lia.
Qed.

(** X5.  The notifier reports [sent: True] exactly when [send_message]
    returned and the closing of the session returned as well: a message
    that was handed over is still reported as not sent when the final QUIT
    raises. *)
Theorem try_send_email_sent_iff
    (w : world) (env : gmap string string) (payload : Contactmessage) :
  (exists status,
      outcome (try_send_email w env payload) = Ok status /\
      status !! "sent" = Some (PyBool true))
  <->
  ((exists msg, Call (SendMessage msg) true
                  ∈ trace (try_send_email w env payload)) /\
   Call SMTPExit true ∈ trace (try_send_email w env payload)).
Proof.
  unfold_notifier.
  destruct (read_smtp_config (w_python w) env payload) as [cfg|e]; cbn.
  2: { split.
       - intros (status & [=] & _).
       - intros [[msg Hin] _]. in_log Hin. }
  world_cases; split.
  all: try (intros (status & [= <-] & Hs); vm_compute in Hs; discriminate Hs).
  all: try (intros [[msg Hin] Hex]; in_log Hin; in_log Hex; fail).
  all: try (intros _; eexists; split; reflexivity).
  all: intros _; split; [eexists|]; repeat constructor.
Qed.

Lemma try_send_email_sent_iff_witness :
  ~ exists status,
      outcome (try_send_email
                 (w_smtp (Ok tt) (Ok tt) (Ok tt) (Ok tt)
                         (Raise (PyExc OtherException "(421, b'timeout')")))
                 env_smtp sample_payload) = Ok status /\
      status !! "sent" = Some (PyBool true).
Proof.
  intros H.
  apply (proj1 (try_send_email_sent_iff
                  (w_smtp (Ok tt) (Ok tt) (Ok tt) (Ok tt)
                          (Raise (PyExc OtherException "(421, b'timeout')")))
                  env_smtp sample_payload)) in H.
  destruct H as [_ Hex]. vm_compute in Hex. in_log Hex.
Defined.

(** The direction used for the contact handler. *)
Lemma try_send_email_sent_true
    (w : world) (env : gmap string string) (payload : Contactmessage) status :
  outcome (try_send_email w env payload) = Ok status ->
  status !! "sent" = Some (PyBool true) ->
  exists msg,
    Call (SendMessage msg) true ∈ trace (try_send_email w env payload) /\
    msg_subject msg = email_subject payload /\
    msg_content msg = email_content payload.
Proof.
  unfold_notifier.
  destruct (read_smtp_config (w_python w) env payload) as [cfg|e]; cbn; [|discriminate].
  world_cases; intros [= <-] Hs; try (vm_compute in Hs; discriminate Hs).
  all: eexists; split; [repeat constructor|split; reflexivity].
Qed.

(** X6.  When the connection, the TLS upgrade or the login fails, no
    message is sent and the status says so, with a reason. *)
Theorem try_send_email_no_send_after_failure
    (w : world) (env : gmap string string) (payload : Contactmessage)
    (c : call) :
  Call c false ∈ trace (try_send_email w env payload) ->
  is_before_send c = true ->
  Forall (fun ev => is_send ev = false)
         (trace (try_send_email w env payload)) /\
  exists reason,
    outcome (try_send_email w env payload) =
      Ok {[ "sent" := PyBool false; "reason" := PyStr reason ]}.
Proof.
  unfold_notifier.
  destruct (read_smtp_config (w_python w) env payload) as [cfg|e]; cbn.
  2: { intros Hin. in_log Hin. }
  world_cases; intros Hin Hc; in_log Hin;
    try (injection Hin; intros; subst c; discriminate Hc);
    (split; [repeat constructor|eexists; reflexivity]).
Qed.

Lemma try_send_email_no_send_after_failure_witness :
  Forall (fun ev => is_send ev = false)
    (trace (try_send_email
              (w_smtp (Ok tt) (Ok tt)
                      (Raise (PyExc OtherException "(535, b'bad credentials')"))
                      (Ok tt) (Ok tt))
              env_smtp sample_payload)).
Proof.
  apply (try_send_email_no_send_after_failure _ env_smtp sample_payload
           (Login "mailer" "secret")).
  - vm_compute. repeat constructor.
  - reflexivity.
Defined.

(** X7.  A header or body that the [email] package refuses never reaches
    the network: the notifier returns [sent: False] with the text of that
    exception and makes no SMTP call. *)
Theorem try_send_email_rejected_message
    (w : world) (env : gmap string string) (payload : Contactmessage)
    (port : Z) (e : pyexc) :
  int (w_python w) (getenv_d env "SMTP_PORT" "587") = Ok port ->
  truthy (getenv env "SMTP_HOST") = true ->
  outcome (build_message w payload
             (getenv_d env "SMTP_FROM" (email payload))
             (getenv_d env "SMTP_TO" "studynotion.dev@gmail.com")) = Raise e ->
  try_send_email w env payload =
    (Ok {[ "sent" := PyBool false; "reason" := PyStr (exc_str e) ]},
     [Notify payload]).
Proof.
  intros Hport Hhost. run_notifier Hport. rewrite Hhost. cbn.
  world_cases; intros [= <-]; reflexivity.
Qed.

Lemma try_send_email_rejected_message_witness :
  try_send_email w_strict_headers env_smtp injecting_payload =
    (Ok {[ "sent" := PyBool false;
           "reason" := PyStr "Header values may not contain linefeed or carriage return characters" ]},
     [Notify injecting_payload]).
Proof.
  apply (try_send_email_rejected_message w_strict_headers env_smtp
           injecting_payload 587
           (PyExc ValueError
              "Header values may not contain linefeed or carriage return characters"));
    reflexivity.
Defined.

(** X8.  The defaults of [SMTP_FROM] and [SMTP_TO] only apply when the
    variable is unset: a variable that is set, also to the empty string, is
    the address of every message sent. *)
Theorem try_send_email_addresses_as_set
    (w : world) (env : gmap string string) (payload : Contactmessage)
    (msg : EmailMessage) (ok : bool) :
  Call (SendMessage msg) ok ∈ trace (try_send_email w env payload) ->
  (forall s, env !! "SMTP_FROM" = Some s -> msg_from msg = s) /\
  (forall s, env !! "SMTP_TO" = Some s -> msg_to msg = s).
Proof.
  intros Hin.
  destruct (read_smtp_config_cases w env payload)
    as [(port & Hport & _)|[m Hc]].
  2: { rewrite (try_send_email_port_error w env payload _ Hc) in Hin.
       cbn in Hin. in_log Hin. }
  pose proof (try_send_email_uses_config w env payload _ _
                (read_smtp_config_ok w env payload port Hport) Hin) as H.
  cbn in H. destruct H as (Hf & Ht & _).
  unfold getenv_d in Hf, Ht.
  split; intros s Hs; rewrite Hs in *; assumption.
Qed.

Lemma try_send_email_addresses_as_set_witness :
  exists msg,
    Call (SendMessage msg) true
      ∈ trace (try_send_email w_up env_empty_from sample_payload) /\
    msg_from msg = EmptyString /\
    msg_to msg = "studynotion.dev@gmail.com".
Proof.
  set (msg := {| msg_subject := "New portfolio contact: Hi";
                 msg_from := EmptyString;
                 msg_to := "studynotion.dev@gmail.com";
                 msg_content := email_content sample_payload |}).
  assert (Call (SendMessage msg) true
            ∈ trace (try_send_email w_up env_empty_from sample_payload))
    as Hin by (vm_compute; repeat constructor).
  exists msg. split; [exact Hin|]. split; [|reflexivity].
  exact (proj1 (try_send_email_addresses_as_set _ _ _ _ _ Hin)
           EmptyString eq_refl).
Defined.

(** X9.  A missing or empty subject is announced as "No subject"; any other
    subject follows the fixed prefix unchanged.  This is the subject of
    every message sent. *)
Theorem try_send_email_subject
    (w : world) (env : gmap string string) (payload : Contactmessage)
    (msg : EmailMessage) (ok : bool) :
  Call (SendMessage msg) ok ∈ trace (try_send_email w env payload) ->
  msg_subject msg =
    "New portfolio contact: " +:+
    match subject payload with
    | None => "No subject"
    | Some s => if decide (s = EmptyString) then "No subject" else s
    end.
Proof.
  intros Hin.
  destruct (read_smtp_config_cases w env payload)
    as [(port & Hport & _)|[m Hc]].
  2: { rewrite (try_send_email_port_error w env payload _ Hc) in Hin.
       cbn in Hin. in_log Hin. }
  pose proof (try_send_email_uses_config w env payload _ _
                (read_smtp_config_ok w env payload port Hport) Hin) as H.
  cbn in H. destruct H as (_ & _ & Hs & _). rewrite Hs.
  unfold email_subject, or_default. destruct (subject payload) as [s|]; [|reflexivity].
  destruct (String.eqb_spec s EmptyString); case_decide; congruence.
Qed.

Lemma try_send_email_subject_witness :
  exists msg,
    Call (SendMessage msg) true
      ∈ trace (try_send_email w_up env_smtp blank_subject_payload) /\
    msg_subject msg = "New portfolio contact: No subject".
Proof.
  set (msg := {| msg_subject := "New portfolio contact: No subject";
                 msg_from := "a@x.com";
                 msg_to := "studynotion.dev@gmail.com";
                 msg_content := email_content blank_subject_payload |}).
  assert (Call (SendMessage msg) true
            ∈ trace (try_send_email w_up env_smtp blank_subject_payload))
    as Hin by (vm_compute; repeat constructor).
  exists msg. split; [exact Hin|].
  exact (try_send_email_subject _ _ _ _ _ Hin).
Defined.

(** * Further properties of the contact handler *)

(** After a successful store write the log of the handler is that write
    followed by the log of the notifier. *)
Lemma submit_contact_trace
    (w : world) (env : gmap string string) (payload : Contactmessage) doc_id :
  w_create_document w "contactmessage" payload = Ok doc_id ->
  trace (submit_contact w env payload) =
    Call (CreateDocument "contactmessage" payload) true
      :: trace (try_send_email w env payload).
Proof.
  intros H. unfold submit_contact, try_except, do_call. rewrite H.
  destruct (try_send_email w env payload) as [[status|e] t]; cbn;
    [|reflexivity].
  unfold make_ContactResponse, pure_call.
  destruct (get_sent status); cbn; try destruct (w_coerce_bool _ _); cbn;
    rewrite ?app_nil_r; reflexivity.
Qed.

(** The notifier's answer when the server cannot be reached. *)
Lemma try_send_email_connect_error
    (w : world) (env : gmap string string) (payload : Contactmessage)
    (port : Z) (msg : EmailMessage) (e : pyexc) :
  int (w_python w) (getenv_d env "SMTP_PORT" "587") = Ok port ->
  truthy (getenv env "SMTP_HOST") = true ->
  outcome (build_message w payload
             (getenv_d env "SMTP_FROM" (email payload))
             (getenv_d env "SMTP_TO" "studynotion.dev@gmail.com")) = Ok msg ->
  w_smtp_connect w (the_str (getenv env "SMTP_HOST")) port 15 = Raise e ->
  try_send_email w env payload =
    (Ok {[ "sent" := PyBool false; "reason" := PyStr (exc_str e) ]},
     [Notify payload;
      Call (SMTPConnect (the_str (getenv env "SMTP_HOST")) port 15) false]).
Proof.
  intros Hport Hhost Hmsg Hconn. revert Hmsg.
  unfold the_str in Hconn.
  run_notifier Hport. rewrite Hhost, Hconn. cbn.
  world_cases; intros [= <-]; reflexivity.
Qed.

(** X10.  The document is written before the mail settings are looked at:
    when the store write returns and [SMTP_PORT] is set to a text that
    [int] rejects, the request fails with a bare 500, by that exception,
    although the document is stored; no SMTP call is made. *)
Theorem submit_contact_stored_then_fails
    (w : world) (env : gmap string string) (payload : Contactmessage)
    (doc_id s : string) (e : pyexc) :
  w_create_document w "contactmessage" payload = Ok doc_id ->
  env !! "SMTP_PORT" = Some s ->
  int (w_python w) s = Raise e ->
  submit_contact w env payload =
    (Raise (Uncaught e),
     [Call (CreateDocument "contactmessage" payload) true; Notify payload]) /\
  post_api_contact w env payload = (500, InternalServerError).
Proof.
  intros Hdoc Hs Hint.
  assert (submit_contact w env payload =
            (Raise (Uncaught e),
             [Call (CreateDocument "contactmessage" payload) true;
              Notify payload])) as Hrun.
  { unfold submit_contact, try_except, do_call. rewrite Hdoc.
    rewrite (try_send_email_port_error w env payload e).
    - reflexivity.
    - unfold read_smtp_config, getenv_d. rewrite Hs, Hint. reflexivity. }
  split; [exact Hrun|]. unfold post_api_contact. rewrite Hrun. reflexivity.
Qed.

Lemma submit_contact_stored_then_fails_witness :
  post_api_contact w_up {[ "SMTP_PORT" := "auto" ]} sample_payload =
    (500, InternalServerError).
Proof.
  apply (submit_contact_stored_then_fails w_up {[ "SMTP_PORT" := "auto" ]}
           sample_payload "65f0c2a1e4b0a1b2c3d4e5f6" "auto"
           (invalid_literal "auto")); reflexivity.
Defined.

(** X11.  [emailed] is never [true] by mistake: in a response that says
    so, the log holds a [send_message] that returned, for the message built
    from the payload. *)
Theorem submit_contact_emailed_sent
    (w : world) (env : gmap string string) (payload : Contactmessage)
    (r : ContactResponse) :
  outcome (submit_contact w env payload) = Ok r ->
  emailed r = true ->
  exists msg,
    Call (SendMessage msg) true ∈ trace (submit_contact w env payload) /\
    msg_subject msg = email_subject payload /\
    msg_content msg = email_content payload.
Proof.
  intros Hout Hem.
  destruct (w_create_document w "contactmessage" payload) as [doc_id|e]
    eqn:Hdoc.
  2: { rewrite (submit_contact_store_error w env payload e Hdoc) in Hout.
       discriminate Hout. }
  destruct (read_smtp_config_cases w env payload)
    as [(port & _ & cfg & Hcfg & _)|[m Hc]].
  2: { revert Hout. unfold submit_contact, try_except, do_call.
       rewrite Hdoc, (try_send_email_port_error w env payload _ Hc).
       discriminate. }
  destruct (submit_contact_returns w env payload doc_id cfg Hdoc Hcfg)
    as (status & sent & Hst & Hsent & Hr).
  rewrite Hr in Hout. injection Hout as <-. cbn in Hem. subst sent.
  destruct (try_send_email_sent_true w env payload status Hst Hsent)
    as (msg & Hin & Hsubj & Hcont).
  exists msg. rewrite (submit_contact_trace w env payload doc_id Hdoc).
  split; [apply elem_of_cons; right; exact Hin|]. split; assumption.
Qed.

Lemma submit_contact_emailed_sent_witness :
  exists msg,
    Call (SendMessage msg) true
      ∈ trace (submit_contact w_up env_smtp sample_payload) /\
    msg_subject msg = "New portfolio contact: Hi".
Proof.
  destruct (submit_contact_emailed_sent w_up env_smtp sample_payload
              {| id := "65f0c2a1e4b0a1b2c3d4e5f6"; emailed := true;
                 email_info := {[ "sent" := PyBool true ]} |})
    as (msg & Hin & Hsubj & _).
  - reflexivity.
  - reflexivity.
  - exists msg. split; [exact Hin|exact Hsubj].
Defined.

(** X12.  The id of a response is the id the store returned for this
    write, unchanged. *)
Theorem submit_contact_id
    (w : world) (env : gmap string string) (payload : Contactmessage)
    (r : ContactResponse) :
  outcome (submit_contact w env payload) = Ok r ->
  w_create_document w "contactmessage" payload = Ok (id r).
Proof.
  intros Hout.
  destruct (w_create_document w "contactmessage" payload) as [doc_id|e]
    eqn:Hdoc.
  2: { rewrite (submit_contact_store_error w env payload e Hdoc) in Hout.
       discriminate Hout. }
  destruct (read_smtp_config_cases w env payload)
    as [(port & _ & cfg & Hcfg & _)|[m Hc]].
  2: { revert Hout. unfold submit_contact, try_except, do_call.
       rewrite Hdoc, (try_send_email_port_error w env payload _ Hc).
       discriminate. }
  destruct (submit_contact_returns w env payload doc_id cfg Hdoc Hcfg)
    as (status & sent & _ & _ & Hr).
  rewrite Hr in Hout. injection Hout as <-. reflexivity.
Qed.

Lemma submit_contact_id_witness :
  w_create_document w_up "contactmessage" sample_payload =
    Ok "65f0c2a1e4b0a1b2c3d4e5f6".
Proof.
  exact (submit_contact_id w_up env_smtp sample_payload
           {| id := "65f0c2a1e4b0a1b2c3d4e5f6"; emailed := true;
              email_info := {[ "sent" := PyBool true ]} |} eq_refl).
Defined.

(** X13.  POST /api/contact answers 200 or 500, and 200 exactly when the
    store write returned and [SMTP_PORT] is unset or holds a text that
    [int] accepts: no failure of the mail server or of the [email] package
    turns into an error response. *)
Theorem post_api_contact_status
    (w : world) (env : gmap string string) (payload : Contactmessage) :
  let status := fst (post_api_contact w env payload) in
  (status = 200 \/ status = 500) /\
  (status = 200 <->
   is_ok (w_create_document w "contactmessage" payload) = true /\
   is_ok (int (w_python w) (getenv_d env "SMTP_PORT" "587")) = true).
Proof.
  cbn zeta. unfold post_api_contact.
  destruct (w_create_document w "contactmessage" payload) as [doc_id|e]
    eqn:Hdoc.
  2: { rewrite (submit_contact_store_error w env payload e Hdoc). cbn.
       split; [right; reflexivity|].
       split; [discriminate|intros [? _]; discriminate]. }
  destruct (read_smtp_config_cases w env payload)
    as [(port & Hport & cfg & Hcfg & _)|[m Hc]].
  - destruct (submit_contact_returns w env payload doc_id cfg Hdoc Hcfg)
      as (status & sent & _ & _ & Hr).
    rewrite Hr, Hport. cbn. split; [left; reflexivity|]. split; auto.
  - assert (int (w_python w) (getenv_d env "SMTP_PORT" "587") = Raise (PyExc ValueError m))
      as Hint.
    { revert Hc. unfold read_smtp_config.
      destruct (int _); [discriminate|]. congruence. }
    unfold submit_contact, try_except, do_call.
    rewrite Hdoc, (try_send_email_port_error w env payload _ Hc), Hint. cbn.
    split; [right; reflexivity|].
    split; [discriminate|intros [_ ?]; discriminate].
Qed.

Lemma post_api_contact_status_witness :
  fst (post_api_contact
         (w_smtp (Raise refused) (Ok tt) (Ok tt) (Ok tt) (Ok tt))
         env_smtp sample_payload) = 200.
Proof.
  apply (proj2 (post_api_contact_status
                  (w_smtp (Raise refused) (Ok tt) (Ok tt) (Ok tt) (Ok tt))
                  env_smtp sample_payload)).
  split; reflexivity.
Defined.

(** X14.  An unreachable mail server does not fail the request: the
    response is 200 with the stored id, [emailed = false] and the text of
    the connection error as reason, and the session is not continued. *)
Theorem post_api_contact_smtp_unreachable
    (w : world) (env : gmap string string) (payload : Contactmessage)
    (doc_id : string) (port : Z) (msg : EmailMessage) (e : pyexc) :
  w_create_document w "contactmessage" payload = Ok doc_id ->
  int (w_python w) (getenv_d env "SMTP_PORT" "587") = Ok port ->
  truthy (getenv env "SMTP_HOST") = true ->
  outcome (build_message w payload
             (getenv_d env "SMTP_FROM" (email payload))
             (getenv_d env "SMTP_TO" "studynotion.dev@gmail.com")) = Ok msg ->
  w_smtp_connect w (the_str (getenv env "SMTP_HOST")) port 15 = Raise e ->
  post_api_contact w env payload =
    (200,
     Json {| id := doc_id; emailed := false;
             email_info := {[ "sent" := PyBool false;
                              "reason" := PyStr (exc_str e) ]} |}) /\
  trace (submit_contact w env payload) =
    [Call (CreateDocument "contactmessage" payload) true;
     Notify payload;
     Call (SMTPConnect (the_str (getenv env "SMTP_HOST")) port 15) false].
Proof.
  intros Hdoc Hport Hhost Hmsg Hconn.
  pose proof (try_send_email_connect_error w env payload port msg e
                Hport Hhost Hmsg Hconn) as Hrun.
  split.
  - unfold post_api_contact, submit_contact, try_except, do_call.
    rewrite Hdoc, Hrun. reflexivity.
  - rewrite (submit_contact_trace w env payload doc_id Hdoc), Hrun.
    reflexivity.
Qed.

Lemma post_api_contact_smtp_unreachable_witness :
  post_api_contact (w_smtp (Raise refused) (Ok tt) (Ok tt) (Ok tt) (Ok tt))
                   env_smtp sample_payload =
    (200,
     Json {| id := "65f0c2a1e4b0a1b2c3d4e5f6"; emailed := false;
             email_info :=
               {[ "sent" := PyBool false;
                  "reason" := PyStr "[Errno 111] Connection refused" ]} |}).
Proof.
  apply (post_api_contact_smtp_unreachable
           (w_smtp (Raise refused) (Ok tt) (Ok tt) (Ok tt) (Ok tt))
           env_smtp sample_payload "65f0c2a1e4b0a1b2c3d4e5f6" 587
           {| msg_subject := email_subject sample_payload;
              msg_from := "a@x.com";
              msg_to := "studynotion.dev@gmail.com";
              msg_content := email_content sample_payload |}
           refused); reflexivity.
Defined.

(** * Further properties of the diagnostic endpoint *)

(** ** Slices *)

Lemma slice_to_length (n : nat) (s : string) :
  (py_len (slice_to n s) <= n)%nat.
Proof.
  revert n. induction s as [|c s IH]; intros n; cbn; [lia|].
  destruct (is_continuation c) eqn:Hc; cbn.
  - rewrite Hc. specialize (IH n). lia.
  - destruct n as [|n]; cbn; [lia|]. rewrite Hc. specialize (IH n). lia.
Qed.

Lemma slice_to_prefix (n : nat) (s : string) :
  exists rest, s = slice_to n s +:+ rest.
Proof.
  revert n. induction s as [|c s IH]; intros n; cbn.
  - exists EmptyString. reflexivity.
  - destruct (is_continuation c).
    + destruct (IH n) as [rest Hrest]. exists rest.
      change (String c s = String c (slice_to n s +:+ rest)).
      f_equal. exact Hrest.
    + destruct n as [|n].
      * exists (String c s). reflexivity.
      * destruct (IH n) as [rest Hrest]. exists rest.
        change (String c s = String c (slice_to n s +:+ rest)).
        f_equal. exact Hrest.
Qed.

Lemma slice_to_short (n : nat) (s : string) :
  (py_len s <= n)%nat -> slice_to n s = s.
Proof.
  revert n. induction s as [|c s IH]; intros n H; cbn in *; [reflexivity|].
  destruct (is_continuation c).
  - f_equal. apply IH. lia.
  - destruct n as [|n]; [lia|]. f_equal. apply IH. lia.
Qed.

(** What is shown of an exception text: its first 50 characters. *)
Lemma shown_text (s : string) :
  (py_len (slice_to 50 s) <= 50)%nat /\
  (exists rest, s = slice_to 50 s +:+ rest) /\
  ((py_len s <= 50)%nat -> slice_to 50 s = s).
Proof.
  split; [apply slice_to_length|].
  split; [apply slice_to_prefix|apply slice_to_short].
Qed.

(** Slices keep whole characters: fifty of sixty two-byte characters. *)
Example slice_to_two_byte_characters :
  let e_acute := String (ascii_of_nat 195) (String (ascii_of_nat 169) EmptyString) in
  let text n := String.concat EmptyString (replicate n e_acute) in
  py_len (text 60%nat) = 60%nat /\ slice_to 50 (text 60%nat) = text 50%nat.
Proof. split; vm_compute; reflexivity. Qed.

(** X15.  The entries [database_url] and [database_name] of the report say
    whether [DATABASE_URL] and [DATABASE_NAME] are set to a non-empty
    value; they never show anything read from the database handle, in any
    state of the database. *)
Theorem test_database_env_entries (w : world) (env : gmap string string) :
  exists response,
    outcome (test_database w env) = Ok response /\
    response !! "database_url" =
      Some (PyStr (if truthy (getenv env "DATABASE_URL")
                   then "✅ Set" else "❌ Not Set")) /\
    response !! "database_name" =
      Some (PyStr (if truthy (getenv env "DATABASE_NAME")
                   then "✅ Set" else "❌ Not Set")) /\
    response !! "backend" = Some (PyStr "✅ Running").
Proof.
  unfold outcome. unfold_diagnostic.
  destruct (w_import_db w) as [[db|]|e]; cbn.
  - destruct (db_name db) as [[v|e]|]; cbn.
    + destruct (db_list_collection_names db) as [listing|e]; cbn;
        eexists; (split; [reflexivity|]);
        repeat split; vm_compute; reflexivity.
    + destruct (is_ImportError e); cbn;
        eexists; (split; [reflexivity|]);
        repeat split; vm_compute; reflexivity.
    + destruct (db_list_collection_names db) as [listing|e]; cbn;
        eexists; (split; [reflexivity|]);
        repeat split; vm_compute; reflexivity.
  - eexists; (split; [reflexivity|]); repeat split; vm_compute; reflexivity.
  - destruct (is_ImportError e); cbn;
      eexists; (split; [reflexivity|]);
      repeat split; vm_compute; reflexivity.
Qed.

(** X16.  [connection_status] says "Connected" exactly when the import
    returned a handle whose [name] could be read, also when the listing
    then fails; and the collections are listed in exactly those runs. *)
Theorem test_database_connection_status
    (w : world) (env : gmap string string) :
  exists response,
    outcome (test_database w env) = Ok response /\
    response !! "connection_status" =
      Some (PyStr (if handle_usable w then "Connected" else "Not Connected")) /\
    ((exists ok, Call ListCollectionNames ok ∈ trace (test_database w env))
     <-> handle_usable w = true).
Proof.
  unfold outcome, trace, handle_usable. unfold_diagnostic.
  destruct (w_import_db w) as [[db|]|e]; cbn.
  - destruct (db_name db) as [[v|e]|]; cbn.
    + destruct (db_list_collection_names db) as [listing|e]; cbn;
        eexists; (split; [reflexivity|]); (split; [vm_compute; reflexivity|]);
        (split; [reflexivity|intros _; eexists; repeat constructor]).
    + destruct (is_ImportError e); cbn;
        eexists; (split; [reflexivity|]); (split; [vm_compute; reflexivity|]);
        (split; [intros [ok Hin]; in_log Hin|discriminate]).
    + destruct (db_list_collection_names db) as [listing|e]; cbn;
        eexists; (split; [reflexivity|]); (split; [vm_compute; reflexivity|]);
        (split; [reflexivity|intros _; eexists; repeat constructor]).
  - eexists; (split; [reflexivity|]); (split; [vm_compute; reflexivity|]);
      (split; [intros [ok Hin]; in_log Hin|discriminate]).
  - destruct (is_ImportError e); cbn;
      eexists; (split; [reflexivity|]); (split; [vm_compute; reflexivity|]);
      (split; [intros [ok Hin]; in_log Hin|discriminate]).
Qed.

Lemma test_database_connection_status_witness :
  exists ok,
    Call ListCollectionNames ok
      ∈ trace (test_database (w_db (Ok (Some broken_db))) ∅).
Proof.
  destruct (test_database_connection_status (w_db (Ok (Some broken_db))) ∅)
    as (response & _ & _ & Hlist).
  apply Hlist. reflexivity.
Defined.

(** X17.  With a usable handle the report follows the listing.  If it
    returns: "Connected & Working" and its first ten names.  If it raises:
    "Connected but Error: " and then at most 50 characters, a prefix of the
    exception text (all of it when it has no more than 50), with no
    collection names. *)
Theorem test_database_listing
    (w : world) (env : gmap string string) (db : db_handle) :
  w_import_db w = Ok (Some db) ->
  handle_usable w = true ->
  exists response,
    outcome (test_database w env) = Ok response /\
    trace (test_database w env) =
      [Call ImportDb true;
       Call ListCollectionNames (is_ok (db_list_collection_names db))] /\
    match db_list_collection_names db with
    | Ok listing =>
        response !! "database" = Some (PyStr "✅ Connected & Working") /\
        response !! "collections" = Some (PyList (list_slice_to 10 listing))
    | Raise e =>
        response !! "collections" = Some (PyList []) /\
        exists shown rest,
          response !! "database" =
            Some (PyStr ("⚠️  Connected but Error: " +:+ shown)) /\
          (py_len shown <= 50)%nat /\
          exc_str e = shown +:+ rest /\
          ((py_len (exc_str e) <= 50)%nat -> shown = exc_str e)
    end.
Proof.
  intros Himp. unfold handle_usable. rewrite Himp.
  unfold outcome, trace. unfold_diagnostic. rewrite Himp. cbn.
  destruct (db_name db) as [[v|e]|]; cbn; try discriminate; intros _.
  all: destruct (db_list_collection_names db) as [listing|e]; cbn.
  all: eexists; (split; [reflexivity|]); (split; [reflexivity|]).
  all: split; [vm_compute; reflexivity|].
  all: try (vm_compute; reflexivity).
  all: destruct (shown_text (exc_str e)) as (Hlen & [rest Hrest] & Hshort).
  all: exists (slice_to 50 (exc_str e)), rest.
  all: split; [vm_compute; reflexivity|].
  all: split; [exact Hlen|]; split; [exact Hrest|exact Hshort].
Qed.

Lemma test_database_listing_witness :
  exists response shown,
    outcome (test_database (w_db (Ok (Some broken_db))) ∅) = Ok response /\
    response !! "database" =
      Some (PyStr ("⚠️  Connected but Error: " +:+ shown)) /\
    (py_len shown <= 50)%nat.
Proof.
  destruct (test_database_listing (w_db (Ok (Some broken_db))) ∅ broken_db
              eq_refl eq_refl)
    as (response & Hout & _ & _ & shown & rest & Hdb & Hlen & _).
  exists response, shown. split; [exact Hout|]. split; [exact Hdb|exact Hlen].
Defined.

(** X18.  When the import itself raises, the handle is never touched, the
    status stays "Not Connected" and no collection is reported.  An
    [ImportError] is reported as the missing database module; any other
    exception as "Error: " and then at most 50 characters, a prefix of its
    text. *)
Theorem test_database_import_error
    (w : world) (env : gmap string string) (e : pyexc) :
  w_import_db w = Raise e ->
  exists response,
    test_database w env = (Ok response, [Call ImportDb false]) /\
    response !! "connection_status" = Some (PyStr "Not Connected") /\
    response !! "collections" = Some (PyList []) /\
    if is_ImportError e then
      response !! "database" =
        Some (PyStr "❌ Database module not found (run enable-database first)")
    else
      exists shown rest,
        response !! "database" = Some (PyStr ("❌ Error: " +:+ shown)) /\
        (py_len shown <= 50)%nat /\
        exc_str e = shown +:+ rest /\
        ((py_len (exc_str e) <= 50)%nat -> shown = exc_str e).
Proof.
  intros Himp. unfold_diagnostic. rewrite Himp. cbn.
  destruct (is_ImportError e); cbn.
  - eexists. split; [reflexivity|]. repeat split; vm_compute; reflexivity.
  - eexists. split; [reflexivity|].
    split; [vm_compute; reflexivity|]. split; [vm_compute; reflexivity|].
    destruct (shown_text (exc_str e)) as (Hlen & [rest Hrest] & Hshort).
    exists (slice_to 50 (exc_str e)), rest.
    split; [vm_compute; reflexivity|].
    split; [exact Hlen|]; split; [exact Hrest|exact Hshort].
Qed.

Lemma test_database_import_error_witness :
  exists response,
    test_database (w_store_down 3) ∅ = (Ok response, [Call ImportDb false]) /\
    response !! "database" =
      Some (PyStr "❌ Database module not found (run enable-database first)").
Proof.
  destruct (test_database_import_error (w_store_down 3) ∅ _ eq_refl)
    as (response & Hrun & _ & _ & Hdb).
  exists response. split; [exact Hrun|exact Hdb].
Defined.

(** X19.  When the module is there but its handle is [None], the report
    says "Available but not initialized", stays "Not Connected", lists no
    collection, and nothing is called on the handle. *)
Theorem test_database_not_initialized
    (w : world) (env : gmap string string) :
  w_import_db w = Ok None ->
  exists response,
    test_database w env = (Ok response, [Call ImportDb true]) /\
    response !! "database" =
      Some (PyStr "⚠️  Available but not initialized") /\
    response !! "connection_status" = Some (PyStr "Not Connected") /\
    response !! "collections" = Some (PyList []).
Proof.
  intros Himp. unfold_diagnostic. rewrite Himp. cbn.
  eexists. split; [reflexivity|]. repeat split; vm_compute; reflexivity.
Qed.

Lemma test_database_not_initialized_witness :
  exists response,
    test_database (w_db (Ok None)) ∅ = (Ok response, [Call ImportDb true]) /\
    response !! "database" =
      Some (PyStr "⚠️  Available but not initialized").
Proof.
  destruct (test_database_not_initialized (w_db (Ok None)) ∅ eq_refl)
    as (response & Hrun & Hdb & _).
  exists response. split; [exact Hrun|exact Hdb].
Defined.

(** * The entry point *)

Example read_root_hello :
  read_root !! "message" = Some (PyStr "Hello from FastAPI Backend!") /\
  hello !! "message" = Some (PyStr "Hello from the backend API!").
Proof. split; reflexivity. Qed.

Example main_default_port (py : interpreter) :
  main py ∅ = Ok ("0.0.0.0", 8000).
Proof. reflexivity. Qed.
